(** * Galactic Taxi: the fixed-timestep scheduler and the taxi flight physics

    A shallow embedding of [GameEngine] (constructor, lifecycle methods and
    the per-frame callback [gameLoop]), of the physics update [updateGame]
    and of the keyboard handlers installed by [initGame].

    Numbers.  JavaScript numbers are modelled by exact rationals [Q]: the
    development is about the control structure and the arithmetic identities
    of the program, not about rounding.  Counters that only ever hold
    integers ([maxFrameSkip], the statistics counters, the animation-frame
    handle) are [Z].  An absent configuration key ([undefined]) is [None].

    Globals.  The script keeps [gameEngine], [taxi], [keys] and the DOM at
    top level.  Here the engine is a record threaded explicitly, and what the
    hooks may touch (taxi, held keys, window and sprite geometry, the
    [active] class of the game screen) is the record [Game].  The hooks of the
    program never re-enter the engine, so a hook is a function on the game
    state alone. *)

From Stdlib Require Import QArith Qround ZArith List Bool String Ascii Lia Lqa.
From Stdlib Require Import DecimalString.
Import ListNotations.

Open Scope Q_scope.

(** ** JavaScript number idioms *)

(** [a < b] as a test; [Qle_bool] is the library's [a <= b]. *)
Definition Qlt_bool (a b : Q) : bool := negb (Qle_bool b a).

(** [v || d] for a numeric option: [undefined] and [0] are falsy. *)
Definition orDefault (v : option Q) (d : Q) : Q :=
  match v with
  | Some n => if Qeq_bool n 0 then d else n
  | None => d
  end.

Definition orDefaultZ (v : option Z) (d : Z) : Z :=
  match v with
  | Some n => if (n =? 0)%Z then d else n
  | None => d
  end.

(** [v || null]: a falsy number becomes [null]. *)
Definition orNull (v : option Q) : option Q :=
  match v with
  | Some n => if Qeq_bool n 0 then None else Some n
  | None => None
  end.

(** [Math.round]: the nearest integer, halves going up. *)
Definition Math_round (a : Q) : Z := Qfloor (a + (1 # 2)).

(** ** The engine *)

(** The [config] argument of the constructor; every key is optional. *)
Record Options : Type := mkOptions {
  opt_targetFPS : option Q;
  opt_targetUPS : option Q;
  opt_maxFrameSkip : option Z;
  opt_gravity : option Q;
  opt_pixelsPerMeter : option Q;
  opt_taxiStartX : option Q;
  opt_taxiStartY : option Q;
  opt_thrusterForce : option Q;
  opt_regularFlightThrust : option Q;
  opt_hoverThrust : option Q;
  opt_hoverDamping : option Q;
  opt_aiBotCount : option Z
}.

(** [this.config]: the physics configuration. *)
Record Config : Type := mkConfig {
  gravity : Q;
  pixelsPerMeter : Q;
  taxiStartX : Q;
  taxiStartY : Q;
  thrusterForce : Q;
  regularFlightThrust : Q;
  hoverThrust : option Q;
  hoverDamping : Q;
  aiBotCount : Z
}.

Record Stats : Type := mkStats {
  fps : Z;
  ups : Z;
  frameCount : Z;
  updateCount : Z;
  lastStatsTime : Q
}.

Record GameEngine : Type := mkGameEngine {
  targetFPS : Q;
  targetUPS : Q;
  maxFrameSkip : Z;
  config : Config;
  frameTime : Q;
  updateTime : Q;
  lastFrameTime : Q;
  lastUpdateTime : Q;
  accumulator : Q;
  isRunning : bool;
  isPaused : bool;
  frameId : option Z;
  stats : Stats
}.

Definition constructor (c : Options) : GameEngine :=
  let targetFPS := orDefault (opt_targetFPS c) 60 in
  let targetUPS := orDefault (opt_targetUPS c) 60 in
  let maxFrameSkip := orDefaultZ (opt_maxFrameSkip c) 5 in
  {| targetFPS := targetFPS;
     targetUPS := targetUPS;
     maxFrameSkip := maxFrameSkip;
     config :=
       {| gravity := orDefault (opt_gravity c) (981 # 100);
          pixelsPerMeter := orDefault (opt_pixelsPerMeter c) 100;
          taxiStartX := orDefault (opt_taxiStartX c) (1 # 2);
          taxiStartY := orDefault (opt_taxiStartY c) (1 # 5);
          thrusterForce := orDefault (opt_thrusterForce c) 1500;
          regularFlightThrust := orDefault (opt_regularFlightThrust c) 500;
          hoverThrust := orNull (opt_hoverThrust c);
          hoverDamping := orDefault (opt_hoverDamping c) 800;
          aiBotCount := orDefaultZ (opt_aiBotCount c) 2 |};
     frameTime := 1000 / targetFPS;
     updateTime := 1000 / targetUPS;
     lastFrameTime := 0;
     lastUpdateTime := 0;
     accumulator := 0;
     isRunning := false;
     isPaused := false;
     frameId := None;
     stats := {| fps := 0; ups := 0; frameCount := 0; updateCount := 0;
                 lastStatsTime := 0 |} |}.

(** Field assignments [this.f = v]. *)
Definition set_lastFrameTime (v : Q) (e : GameEngine) : GameEngine :=
  mkGameEngine (targetFPS e) (targetUPS e) (maxFrameSkip e) (config e)
    (frameTime e) (updateTime e) v (lastUpdateTime e) (accumulator e)
    (isRunning e) (isPaused e) (frameId e) (stats e).

Definition set_lastUpdateTime (v : Q) (e : GameEngine) : GameEngine :=
  mkGameEngine (targetFPS e) (targetUPS e) (maxFrameSkip e) (config e)
    (frameTime e) (updateTime e) (lastFrameTime e) v (accumulator e)
    (isRunning e) (isPaused e) (frameId e) (stats e).

Definition set_accumulator (v : Q) (e : GameEngine) : GameEngine :=
  mkGameEngine (targetFPS e) (targetUPS e) (maxFrameSkip e) (config e)
    (frameTime e) (updateTime e) (lastFrameTime e) (lastUpdateTime e) v
    (isRunning e) (isPaused e) (frameId e) (stats e).

Definition set_isRunning (v : bool) (e : GameEngine) : GameEngine :=
  mkGameEngine (targetFPS e) (targetUPS e) (maxFrameSkip e) (config e)
    (frameTime e) (updateTime e) (lastFrameTime e) (lastUpdateTime e)
    (accumulator e) v (isPaused e) (frameId e) (stats e).

Definition set_isPaused (v : bool) (e : GameEngine) : GameEngine :=
  mkGameEngine (targetFPS e) (targetUPS e) (maxFrameSkip e) (config e)
    (frameTime e) (updateTime e) (lastFrameTime e) (lastUpdateTime e)
    (accumulator e) (isRunning e) v (frameId e) (stats e).

Definition set_frameId (v : option Z) (e : GameEngine) : GameEngine :=
  mkGameEngine (targetFPS e) (targetUPS e) (maxFrameSkip e) (config e)
    (frameTime e) (updateTime e) (lastFrameTime e) (lastUpdateTime e)
    (accumulator e) (isRunning e) (isPaused e) v (stats e).

Definition set_stats (v : Stats) (e : GameEngine) : GameEngine :=
  mkGameEngine (targetFPS e) (targetUPS e) (maxFrameSkip e) (config e)
    (frameTime e) (updateTime e) (lastFrameTime e) (lastUpdateTime e)
    (accumulator e) (isRunning e) (isPaused e) (frameId e) v.

(** [updateStats(deltaTime)]; [now] is the reading of [performance.now()]. *)
Definition updateStats (deltaTime now : Q) (e : GameEngine) : GameEngine :=
  let elapsed := now - lastStatsTime (stats e) in
  if Qle_bool 1000 elapsed then
    set_stats
      {| fps := Math_round (inject_Z (frameCount (stats e)) * 1000 / elapsed);
         ups := Math_round (inject_Z (updateCount (stats e)) * 1000 / elapsed);
         frameCount := 0;
         updateCount := 0;
         lastStatsTime := now |} e
  else e.

Definition resetStats (now : Q) (e : GameEngine) : GameEngine :=
  set_stats {| fps := 0; ups := 0; frameCount := 0; updateCount := 0;
               lastStatsTime := now |} e.

Record StatsSnapshot : Type := mkSnapshot {
  snap_fps : Z; snap_ups : Z; snap_isRunning : bool; snap_isPaused : bool
}.

Definition getStats (e : GameEngine) : StatsSnapshot :=
  {| snap_fps := fps (stats e); snap_ups := ups (stats e);
     snap_isRunning := isRunning e; snap_isPaused := isPaused e |}.

(** A hook invocation, as the engine performs it. *)
Inductive HookCall : Type :=
| CallInit
| CallUpdate (dt : Q)
| CallRender (alpha : Q)
| CallPause
| CallResume
| CallStop.

Section Scheduler.

(** What the hooks act on. *)
Variable G : Type.

(** The callback fields; [None] is [null]. *)
Record Hooks : Type := mkHooks {
  onUpdate : option (Q -> G -> G);
  onRender : option (Q -> G -> G);
  onInit : option (G -> G);
  onPause : option (G -> G);
  onResume : option (G -> G);
  onStop : option (G -> G)
}.

(** The engine, the game state its hooks mutate, and the hook calls made
    so far (oldest first). *)
Record Run : Type := mkRun {
  engine : GameEngine;
  game : G;
  calls : list HookCall
}.

Variable h : Hooks.

Definition with_engine (f : GameEngine -> GameEngine) (r : Run) : Run :=
  mkRun (f (engine r)) (game r) (calls r).

(** [if (this.hook) this.hook(args)]. *)
Definition invoke (hook : option (G -> G)) (c : HookCall) (r : Run) : Run :=
  match hook with
  | Some f => mkRun (engine r) (f (game r)) (calls r ++ [c])
  | None => r
  end.

(** One frame as the host delivers it: the timestamp passed to the
    callback, the handle [requestAnimationFrame] returns, and the reading of
    [performance.now()] inside [updateStats]. *)
Record Frame : Type := mkFrame {
  currentTime : Q;
  rafHandle : Z;
  statsClock : Q
}.

(** The body of the [while] loop of [gameLoop]. *)
Definition updateOnce (r : Run) : Run :=
  let r := invoke (option_map (fun f => f (updateTime (engine r) / 1000))
                     (onUpdate h))
                  (CallUpdate (updateTime (engine r) / 1000)) r in
  let r := with_engine
             (fun e => set_accumulator (accumulator e - updateTime e) e) r in
  with_engine
    (fun e =>
       set_stats
         (mkStats (fps (stats e)) (ups (stats e)) (frameCount (stats e))
            (updateCount (stats e) + 1) (lastStatsTime (stats e))) e) r.

(** [while (this.accumulator >= this.updateTime && updateCount < this.maxFrameSkip)].
    [n] is the local [updateCount]; since it grows by one per iteration and
    the loop stops once it reaches [maxFrameSkip], [fuel] iterations are
    enough when [fuel] is [maxFrameSkip] (see [updateLoop_exit]). *)
Fixpoint updateLoop (fuel : nat) (n : Z) (r : Run) : Run :=
  match fuel with
  | O => r
  | S fuel' =>
      if Qle_bool (updateTime (engine r)) (accumulator (engine r))
         && (n <? maxFrameSkip (engine r))%Z
      then updateLoop fuel' (n + 1)%Z (updateOnce r)
      else r
  end.

Definition gameLoop (f : Frame) (r : Run) : Run :=
  if negb (isRunning (engine r)) then r
  else
    let r := with_engine (set_frameId (Some (rafHandle f))) r in
    if isPaused (engine r) then r
    else
      let deltaTime := currentTime f - lastFrameTime (engine r) in
      let r := with_engine (set_lastFrameTime (currentTime f)) r in
      let r := with_engine (updateStats deltaTime (statsClock f)) r in
      let r := with_engine
                 (fun e => set_accumulator (accumulator e + deltaTime) e) r in
      let r := updateLoop (Z.to_nat (maxFrameSkip (engine r))) 0 r in
      let r :=
        if Qlt_bool (updateTime (engine r) * inject_Z (maxFrameSkip (engine r)))
                    (accumulator (engine r))
        then with_engine
               (fun e =>
                  set_accumulator (updateTime e * inject_Z (maxFrameSkip e)) e) r
        else r in
      let r := invoke (option_map
                         (fun g => g (accumulator (engine r) / updateTime (engine r)))
                         (onRender h))
                      (CallRender (accumulator (engine r) / updateTime (engine r))) r in
      with_engine
        (fun e =>
           set_stats
             (mkStats (fps (stats e)) (ups (stats e)) (frameCount (stats e) + 1)
                (updateCount (stats e)) (lastStatsTime (stats e))) e) r.

(** [start()]: [now] and [resetClock] are the two readings of
    [performance.now()] it takes itself; [first] carries the handle and the
    reading of the [gameLoop] call it ends with (its [currentTime] is not
    used: the loop is entered with [this.lastFrameTime]). *)
Definition start (now resetClock : Q) (first : Frame) (r : Run) : Run :=
  if isRunning (engine r) then r
  else
    let r := with_engine (set_isRunning true) r in
    let r := with_engine (set_isPaused false) r in
    let r := with_engine (set_lastFrameTime now) r in
    let r := with_engine (fun e => set_lastUpdateTime (lastFrameTime e) e) r in
    let r := with_engine (set_accumulator 0) r in
    let r := with_engine (resetStats resetClock) r in
    let r := invoke (onInit h) CallInit r in
    gameLoop (mkFrame (lastFrameTime (engine r)) (rafHandle first)
                (statsClock first)) r.

Definition stop (r : Run) : Run :=
  if negb (isRunning (engine r)) then r
  else
    let r := with_engine (set_isRunning false) r in
    let r := match frameId (engine r) with
             | Some id => if (id =? 0)%Z then r
                          else with_engine (set_frameId None) r
             | None => r
             end in
    invoke (onStop h) CallStop r.

Definition pause (r : Run) : Run :=
  if negb (isRunning (engine r)) || isPaused (engine r) then r
  else
    let r := with_engine (set_isPaused true) r in
    invoke (onPause h) CallPause r.

Definition resume (now : Q) (r : Run) : Run :=
  if negb (isRunning (engine r)) || negb (isPaused (engine r)) then r
  else
    let r := with_engine (set_isPaused false) r in
    let r := with_engine (set_lastFrameTime now) r in
    let r := with_engine (fun e => set_lastUpdateTime (lastFrameTime e) e) r in
    invoke (onResume h) CallResume r.

End Scheduler.

Arguments mkHooks {G}.
Arguments onUpdate {G}.
Arguments onRender {G}.
Arguments onInit {G}.
Arguments onPause {G}.
Arguments onResume {G}.
Arguments onStop {G}.
Arguments mkRun {G}.
Arguments engine {G}.
Arguments game {G}.
Arguments calls {G}.
Arguments with_engine {G}.
Arguments invoke {G}.
Arguments updateOnce {G}.
Arguments updateLoop {G}.
Arguments gameLoop {G}.
Arguments start {G}.
Arguments stop {G}.
Arguments pause {G}.
Arguments resume {G}.

(** ** The taxi, the held keys and the page *)

Module Taxi.

Record t : Type := mk {
  x : Q;
  y : Q;
  vx : Q;
  vy : Q;
  onGround : bool;
  hoverMode : bool;
  facingRight : bool;
  landingGear : bool
}.

Definition set_x (v : Q) (s : t) : t :=
  mk v (y s) (vx s) (vy s) (onGround s) (hoverMode s) (facingRight s) (landingGear s).
Definition set_y (v : Q) (s : t) : t :=
  mk (x s) v (vx s) (vy s) (onGround s) (hoverMode s) (facingRight s) (landingGear s).
Definition set_vx (v : Q) (s : t) : t :=
  mk (x s) (y s) v (vy s) (onGround s) (hoverMode s) (facingRight s) (landingGear s).
Definition set_vy (v : Q) (s : t) : t :=
  mk (x s) (y s) (vx s) v (onGround s) (hoverMode s) (facingRight s) (landingGear s).
Definition set_onGround (v : bool) (s : t) : t :=
  mk (x s) (y s) (vx s) (vy s) v (hoverMode s) (facingRight s) (landingGear s).
Definition set_hoverMode (v : bool) (s : t) : t :=
  mk (x s) (y s) (vx s) (vy s) (onGround s) v (facingRight s) (landingGear s).
Definition set_facingRight (v : bool) (s : t) : t :=
  mk (x s) (y s) (vx s) (vy s) (onGround s) (hoverMode s) v (landingGear s).
Definition set_landingGear (v : bool) (s : t) : t :=
  mk (x s) (y s) (vx s) (vy s) (onGround s) (hoverMode s) (facingRight s) v.

End Taxi.

Module Keys.

Record t : Type := mk { w : bool; s : bool; a : bool; d : bool }.

End Keys.

(** The [#taxi-sprite] element: its laid-out size, which the physics reads,
    and what [renderGame] writes to it. *)
Record Sprite : Type := mkSprite {
  offsetWidth : Q;
  offsetHeight : Q;
  gearImage : bool;
  styleLeft : Q;
  styleTop : Q;
  flipped : bool;
  visible : bool
}.

Record Game : Type := mkGame {
  taxi : Taxi.t;
  keys : Keys.t;
  innerWidth : Q;
  innerHeight : Q;
  taxiSprite : option Sprite;
  gameScreenActive : bool
}.

Definition set_taxi (v : Taxi.t) (g : Game) : Game :=
  mkGame v (keys g) (innerWidth g) (innerHeight g) (taxiSprite g) (gameScreenActive g).

Definition set_keys (v : Keys.t) (g : Game) : Game :=
  mkGame (taxi g) v (innerWidth g) (innerHeight g) (taxiSprite g) (gameScreenActive g).

Definition set_taxiSprite (v : option Sprite) (g : Game) : Game :=
  mkGame (taxi g) (keys g) (innerWidth g) (innerHeight g) v (gameScreenActive g).

(** ** The physics update *)

(** [taxi.vy -= dv], [taxi.vy += dv], and the same on [vx]. *)
Definition sub_vy (dv : Q) (t : Taxi.t) : Taxi.t := Taxi.set_vy (Taxi.vy t - dv) t.
Definition add_vy (dv : Q) (t : Taxi.t) : Taxi.t := Taxi.set_vy (Taxi.vy t + dv) t.
Definition sub_vx (dv : Q) (t : Taxi.t) : Taxi.t := Taxi.set_vx (Taxi.vx t - dv) t.
Definition add_vx (dv : Q) (t : Taxi.t) : Taxi.t := Taxi.set_vx (Taxi.vx t + dv) t.

(** Hover mode, the damping opposite to the vertical velocity: slow a fall
    or a rise, and stop at zero instead of overshooting. *)
Definition dampVertical (hoverDamping deltaTime : Q) (t : Taxi.t) : Taxi.t :=
  if Qlt_bool 0 (Taxi.vy t) then
    let t := sub_vy (hoverDamping * deltaTime) t in
    if Qlt_bool (Taxi.vy t) 0 then Taxi.set_vy 0 t else t
  else if Qlt_bool (Taxi.vy t) 0 then
    let t := add_vy (hoverDamping * deltaTime) t in
    if Qlt_bool 0 (Taxi.vy t) then Taxi.set_vy 0 t else t
  else t.

(** Hover mode, the same damping on the horizontal velocity. *)
Definition dampHorizontal (hoverDamping deltaTime : Q) (t : Taxi.t) : Taxi.t :=
  if Qlt_bool 0 (Taxi.vx t) then
    let t := sub_vx (hoverDamping * deltaTime) t in
    if Qlt_bool (Taxi.vx t) 0 then Taxi.set_vx 0 t else t
  else if Qlt_bool (Taxi.vx t) 0 then
    let t := add_vx (hoverDamping * deltaTime) t in
    if Qlt_bool 0 (Taxi.vx t) then Taxi.set_vx 0 t else t
  else t.

(** [if (keys.w) ...], [if (keys.s) ...], [if (keys.a) ...], [if (keys.d) ...]. *)
Definition thrustUp (k : Keys.t) (thrusterForce deltaTime : Q) (t : Taxi.t) : Taxi.t :=
  if Keys.w k then sub_vy (thrusterForce * deltaTime) t else t.

Definition thrustDown (k : Keys.t) (thrusterForce deltaTime : Q) (t : Taxi.t) : Taxi.t :=
  if Keys.s k then add_vy (thrusterForce * deltaTime) t else t.

Definition thrustLeft (k : Keys.t) (thrusterForce deltaTime : Q) (t : Taxi.t) : Taxi.t :=
  if Keys.a k then Taxi.set_facingRight false (sub_vx (thrusterForce * deltaTime) t)
  else t.

Definition thrustRight (k : Keys.t) (thrusterForce deltaTime : Q) (t : Taxi.t) : Taxi.t :=
  if Keys.d k then Taxi.set_facingRight true (add_vx (thrusterForce * deltaTime) t)
  else t.

(** [taxi.x += taxi.vx * deltaTime] and [taxi.y += taxi.vy * deltaTime]. *)
Definition moveX (deltaTime : Q) (t : Taxi.t) : Taxi.t :=
  Taxi.set_x (Taxi.x t + Taxi.vx t * deltaTime) t.

Definition moveY (deltaTime : Q) (t : Taxi.t) : Taxi.t :=
  Taxi.set_y (Taxi.y t + Taxi.vy t * deltaTime) t.

(** Statements in sequence: [t |> f |> g] runs [f], then [g]. *)
Notation "t |> f" := (f t) (at level 45, left associativity, only parsing).

(** The first half of [updateGame]: the forces of the current mode and of
    the held keys change the velocity, then the velocity moves the taxi.
    [c] is [gameEngine.config]. *)
Definition integrate (c : Config) (deltaTime : Q) (g : Game) : Taxi.t :=
  let thrusterForce := thrusterForce c in
  let gravityPixels := gravity c * pixelsPerMeter c in
  let hoverThrust :=
    match hoverThrust c with
    | None => gravityPixels
    | Some v => v
    end in
  (if Taxi.hoverMode (taxi g) then
     let hoverDamping := hoverDamping c in
     taxi g
     |> dampVertical hoverDamping deltaTime
     |> dampHorizontal hoverDamping deltaTime
     |> sub_vy (hoverThrust * deltaTime)
     |> thrustUp (keys g) thrusterForce deltaTime
     |> thrustDown (keys g) thrusterForce deltaTime
     |> add_vy (gravityPixels * deltaTime)
     |> thrustLeft (keys g) thrusterForce deltaTime
     |> thrustRight (keys g) thrusterForce deltaTime
   else
     let regularFlightThrust := regularFlightThrust c in
     taxi g
     |> sub_vy (regularFlightThrust * deltaTime)
     |> thrustUp (keys g) thrusterForce deltaTime
     |> thrustDown (keys g) thrusterForce deltaTime
     |> thrustLeft (keys g) thrusterForce deltaTime
     |> thrustRight (keys g) thrusterForce deltaTime
     |> add_vy (gravityPixels * deltaTime))
  |> moveX deltaTime
  |> moveY deltaTime.

(** The boundaries [updateGame] computes from the window and the sprite;
    without a sprite its width and height count as [0]. *)
Definition taxiWidth (g : Game) : Q :=
  match taxiSprite g with Some sp => offsetWidth sp | None => 0 end.

Definition taxiHeight (g : Game) : Q :=
  match taxiSprite g with Some sp => offsetHeight sp | None => 0 end.

Definition leftBoundary (g : Game) : Q := taxiWidth g / 2.
Definition rightBoundary (g : Game) : Q := innerWidth g - taxiWidth g / 2.
Definition topBoundary : Q := 0.
Definition bottomBoundary (g : Game) : Q := innerHeight g - taxiHeight g.

(** The second half of [updateGame]: collision with the screen edges. *)
Definition collide (g : Game) (t : Taxi.t) : Taxi.t :=
  let t :=
    if Qlt_bool (Taxi.x t) (leftBoundary g) then
      Taxi.set_vx 0 (Taxi.set_x (leftBoundary g) t)
    else if Qlt_bool (rightBoundary g) (Taxi.x t) then
      Taxi.set_vx 0 (Taxi.set_x (rightBoundary g) t)
    else t in
  if Qlt_bool (Taxi.y t) topBoundary then
    Taxi.set_onGround false (Taxi.set_vy 0 (Taxi.set_y topBoundary t))
  else if Qle_bool (bottomBoundary g) (Taxi.y t) then
    Taxi.set_onGround true (Taxi.set_vy 0 (Taxi.set_y (bottomBoundary g) t))
  else Taxi.set_onGround false t.

Definition updateGame (c : Config) (deltaTime : Q) (g : Game) : Game :=
  set_taxi (collide g (integrate c deltaTime g)) g.

(** [renderGame(alpha)]: writes the sprite, reads the taxi. *)
Definition renderGame (alpha : Q) (g : Game) : Game :=
  match taxiSprite g with
  | Some sp =>
      set_taxiSprite
        (Some (mkSprite (offsetWidth sp) (offsetHeight sp)
                 (Taxi.landingGear (taxi g))
                 (Taxi.x (taxi g) - offsetWidth sp / 2)
                 (Taxi.y (taxi g))
                 (Taxi.facingRight (taxi g))
                 (visible sp))) g
  | None => g
  end.

(** The [onInit] hook, as far as the taxi and its sprite go (the decorative
    bot sprites it creates are never read again). *)
Definition initTaxi (c : Config) (g : Game) : Game :=
  let t := Taxi.mk (innerWidth g * taxiStartX c) (innerHeight g * taxiStartY c)
             0 0 false false false false in
  let g := set_taxi t g in
  match taxiSprite g with
  | Some sp =>
      set_taxiSprite
        (Some (mkSprite (offsetWidth sp) (offsetHeight sp)
                 (Taxi.landingGear t)
                 (Taxi.x t - offsetWidth sp / 2)
                 (Taxi.y t)
                 (flipped sp)
                 true)) g
  | None => g
  end.

(** The hooks [initGame] installs; [onPause] and [onResume] stay [null],
    [onStop] only logs. *)
Definition gameHooks (c : Config) : Hooks Game :=
  {| onUpdate := Some (updateGame c);
     onRender := Some renderGame;
     onInit := Some (initTaxi c);
     onPause := None;
     onResume := None;
     onStop := Some (fun g => g) |}.

(** The engine [initGame] constructs. *)
Definition initGameOptions : Options :=
  {| opt_targetFPS := Some 60;
     opt_targetUPS := Some 60;
     opt_maxFrameSkip := Some 5%Z;
     opt_gravity := Some (981 # 100);
     opt_pixelsPerMeter := Some 100;
     opt_taxiStartX := Some (1 # 2);
     opt_taxiStartY := Some (1 # 2);
     opt_thrusterForce := Some 1500;
     opt_regularFlightThrust := Some 500;
     opt_hoverThrust := None;
     opt_hoverDamping := Some 800;
     opt_aiBotCount := Some 2%Z |}.

(** ** Keyboard handlers *)

Record KeyboardEvent : Type := mkKeyboardEvent { key : string }.

Definition lowerChar (ch : ascii) : ascii :=
  let n := nat_of_ascii ch in
  if (65 <=? n)%nat && (n <=? 90)%nat then ascii_of_nat (n + 32) else ch.

(** [String.prototype.toLowerCase] on the ASCII range. *)
Fixpoint toLowerCase (str : string) : string :=
  match str with
  | EmptyString => EmptyString
  | String ch rest => String (lowerChar ch) (toLowerCase rest)
  end.

Definition with_game (f : Game -> Game) (r : Run Game) : Run Game :=
  mkRun (engine r) (f (game r)) (calls r).

Definition running (e : GameEngine) : bool := isRunning e && negb (isPaused e).

(** [keys[key] = v] for [key] one of ["w"], ["s"], ["a"], ["d"]. *)
Definition setKey (name : string) (v : bool) (k : Keys.t) : Keys.t :=
  if (name =? "w")%string then Keys.mk v (Keys.s k) (Keys.a k) (Keys.d k)
  else if (name =? "s")%string then Keys.mk (Keys.w k) v (Keys.a k) (Keys.d k)
  else if (name =? "a")%string then Keys.mk (Keys.w k) (Keys.s k) v (Keys.d k)
  else if (name =? "d")%string then Keys.mk (Keys.w k) (Keys.s k) (Keys.a k) v
  else k.

Definition isWASD (name : string) : bool :=
  ((name =? "w") || (name =? "s") || (name =? "a") || (name =? "d"))%string.

(** The thruster keys: the letters by their lowered name, the arrows by the
    event's own name. *)
Definition thrusterKeys (event : KeyboardEvent) (v : bool) (k : Keys.t) : Keys.t :=
  let name := toLowerCase (key event) in
  if isWASD name then setKey name v k
  else if (key event =? "ArrowUp")%string then setKey "w" v k
  else if (key event =? "ArrowDown")%string then setKey "s" v k
  else if (key event =? "ArrowLeft")%string then setKey "a" v k
  else if (key event =? "ArrowRight")%string then setKey "d" v k
  else k.

(** The [keydown] listener.  [now] is the clock reading [resume()] takes.
    The guard [gameScreen && gameScreen.classList.contains('active') &&
    gameEngine] is [gameScreenActive]: the listener is installed after the
    engine is constructed.  The sounds it plays are outside the model. *)
Definition keydown (h : Hooks Game) (now : Q) (event : KeyboardEvent)
    (r : Run Game) : Run Game :=
  if gameScreenActive (game r) then
    let name := toLowerCase (key event) in
    let r :=
      if (name =? "p")%string then
        if isPaused (engine r) then resume h now r
        else if isRunning (engine r) then pause h r
        else r
      else r in
    let r :=
      if ((name =? "h") || (name =? "H"))%string then
        if running (engine r) then
          with_game
            (fun g => set_taxi
                        (Taxi.set_hoverMode (negb (Taxi.hoverMode (taxi g))) (taxi g)) g) r
        else r
      else r in
    let r :=
      if (key event =? " ")%string then
        if running (engine r) then
          with_game
            (fun g => set_taxi
                        (Taxi.set_landingGear (negb (Taxi.landingGear (taxi g))) (taxi g)) g) r
        else r
      else r in
    if running (engine r) then
      with_game (fun g => set_keys (thrusterKeys event true (keys g)) g) r
    else r
  else r.

(** The [keyup] listener. *)
Definition keyup (event : KeyboardEvent) (r : Run Game) : Run Game :=
  if gameScreenActive (game r) then
    with_game (fun g => set_keys (thrusterKeys event false (keys g)) g) r
  else r.

(** ** Runs of the program *)

(** What the host delivers to the page once the game is set up. *)
Inductive Input : Type :=
| KeyDown (now : Q) (event : KeyboardEvent)
| KeyUp (event : KeyboardEvent)
| AnimationFrame (f : Frame).

Definition step (h : Hooks Game) (i : Input) (r : Run Game) : Run Game :=
  match i with
  | KeyDown now event => keydown h now event r
  | KeyUp event => keyup event r
  | AnimationFrame f => gameLoop h f r
  end.

Definition run (h : Hooks Game) (inputs : list Input) (r : Run Game) : Run Game :=
  fold_left (fun r i => step h i r) inputs r.

(** [n] consecutive physics updates with the same [deltaTime]. *)
Fixpoint updates (c : Config) (deltaTime : Q) (n : nat) (g : Game) : Game :=
  match n with
  | O => g
  | S n' => updates c deltaTime n' (updateGame c deltaTime g)
  end.

(** The states after [0], [1], ..., [n] updates. *)
Fixpoint trajectory (c : Config) (deltaTime : Q) (n : nat) (g : Game) : list Game :=
  match n with
  | O => [g]
  | S n' => g :: trajectory c deltaTime n' (updateGame c deltaTime g)
  end.

(** The kinematic state [(x, y, vx, vy)]. *)
Definition kinematics (g : Game) : Q * Q * Q * Q :=
  (Taxi.x (taxi g), Taxi.y (taxi g), Taxi.vx (taxi g), Taxi.vy (taxi g)).

(** ** Operations on the engine, for statements about whole runs *)

Inductive Op : Type :=
| OpStart (now resetClock : Q) (first : Frame)
| OpFrame (f : Frame)
| OpPause
| OpResume (now : Q)
| OpStop.

Definition apply {G : Type} (h : Hooks G) (op : Op) (r : Run G) : Run G :=
  match op with
  | OpStart now resetClock first => start h now resetClock first r
  | OpFrame f => gameLoop h f r
  | OpPause => pause h r
  | OpResume now => resume h now r
  | OpStop => stop h r
  end.

(** The states after each operation of [ops], in order. *)
Fixpoint visited {G : Type} (h : Hooks G) (ops : list Op) (r : Run G) : list (Run G) :=
  match ops with
  | [] => []
  | op :: rest => apply h op r :: visited h rest (apply h op r)
  end.

(** Every frame that is processed (the engine runs and is not paused) comes
    with a timestamp no earlier than the previous one: its delta is
    non-negative. *)
Fixpoint deltasNonNegative {G : Type} (h : Hooks G) (ops : list Op) (r : Run G) : Prop :=
  match ops with
  | [] => True
  | op :: rest =>
      match op with
      | OpFrame f =>
          running (engine r) = true -> lastFrameTime (engine r) <= currentTime f
      | _ => True
      end
      /\ deltasNonNegative h rest (apply h op r)
  end.

(** The accumulator after an operation is within [0, updateTime * maxFrameSkip]. *)
Definition accumulatorBounded (e : GameEngine) : Prop :=
  0 <= accumulator e /\ accumulator e <= updateTime e * inject_Z (maxFrameSkip e).

(** A natural number as a JavaScript number. *)
Definition Qnat (k : nat) : Q := inject_Z (Z.of_nat k).

(** The accumulator as the loop of [gameLoop] finds it. *)
Definition preLoopAccumulator (f : Frame) (e : GameEngine) : Q :=
  accumulator e + (currentTime f - lastFrameTime e).

(** An options object that sets only [targetUPS]. *)
Definition onlyTargetUPS (v : Q) : Options :=
  {| opt_targetFPS := None; opt_targetUPS := Some v; opt_maxFrameSkip := None;
     opt_gravity := None; opt_pixelsPerMeter := None; opt_taxiStartX := None;
     opt_taxiStartY := None; opt_thrusterForce := None;
     opt_regularFlightThrust := None; opt_hoverThrust := None;
     opt_hoverDamping := None; opt_aiBotCount := None |}.

(** ** A concrete session

    The engine as [initGame] configures it, on a 1920 by 1080 window with a
    64 by 32 sprite, the taxi at rest in the middle of the screen. *)

Definition sessionGame : Game :=
  {| taxi := Taxi.mk 960 540 0 0 false false false false;
     keys := Keys.mk false false false false;
     innerWidth := 1920;
     innerHeight := 1080;
     taxiSprite := Some (mkSprite 64 32 false 928 540 false true);
     gameScreenActive := true |}.

Definition sessionConfig : Config := config (constructor initGameOptions).

Definition sessionHooks : Hooks Game := gameHooks sessionConfig.

Definition sessionRun : Run Game := mkRun (constructor initGameOptions) sessionGame [].

(** The session once [start()] has run, at clock reading 1000 ms. *)
Definition startedRun : Run Game :=
  start sessionHooks 1000 1000 (mkFrame 1000 1 1000) sessionRun.

(** Start, a 50 ms frame, a pause with a frame that is skipped, a resume, a
    ten-second stall (the tab was in the background) and a short frame. *)
Definition sessionOps : list Op :=
  [ OpStart 1000 1000 (mkFrame 1000 1 1000);
    OpFrame (mkFrame 1050 2 1050);
    OpPause;
    OpFrame (mkFrame 5000 3 5000);
    OpResume 6000;
    OpFrame (mkFrame 16000 4 16000);
    OpFrame (mkFrame 16010 5 16010) ].

(** The taxi five pixels left of the left boundary (the half sprite width,
    32), moving left at 50 px/s, with the right thruster held. *)
Definition leftEdgeGame : Game :=
  {| taxi := Taxi.mk 27 540 (-50) 0 false false false false;
     keys := Keys.mk false false false true;
     innerWidth := 1920;
     innerHeight := 1080;
     taxiSprite := Some (mkSprite 64 32 false 0 540 false true);
     gameScreenActive := true |}.

(** A window exactly as high as the sprite, so that the lower boundary is
    the upper one; the taxi at rest at the top with the up thruster held. *)
Definition flatWindowGame : Game :=
  {| taxi := Taxi.mk 960 0 0 0 false false false false;
     keys := Keys.mk true false false false;
     innerWidth := 1920;
     innerHeight := 32;
     taxiSprite := Some (mkSprite 64 32 false 928 0 false true);
     gameScreenActive := true |}.

(** No thruster key is held. *)
Definition noKeys : Keys.t := Keys.mk false false false false.

(** An update during which the taxi touches neither the upper nor the lower
    boundary: the integrated [y] is strictly inside the vertical range. *)
Definition airborne (c : Config) (deltaTime : Q) (g : Game) : Prop :=
  0 <= Taxi.y (integrate c deltaTime g)
  /\ Taxi.y (integrate c deltaTime g) < bottomBoundary g.

(** The next [n] updates are all airborne. *)
Fixpoint airborneFor (c : Config) (deltaTime : Q) (n : nat) (g : Game) : Prop :=
  match n with
  | O => True
  | S n' => airborne c deltaTime g
            /\ airborneFor c deltaTime n' (updateGame c deltaTime g)
  end.

(** Consecutive elements strictly increase. *)
Fixpoint increasing (l : list Q) : Prop :=
  match l with
  | a :: (b :: _) as rest => a < b /\ increasing rest
  | _ => True
  end.

(** The hover session: the taxi at rest in hover mode, no key held. *)
Definition hoverGame : Game :=
  set_taxi (Taxi.set_hoverMode true (taxi sessionGame)) sessionGame.

(** Two configurations and game states offer the same inputs to the
    kinematics of the taxi: position, velocity and flight mode, the held keys,
    the physics constants, the window size and the laid-out size of the
    sprite.  Everything else may differ: [onGround], [facingRight],
    [landingGear], what [renderGame] wrote to the sprite, whether the screen
    is active, the start position and the bot count of the configuration. *)
Definition samePhysicsInputs (c1 : Config) (g1 : Game) (c2 : Config) (g2 : Game) : Prop :=
  kinematics g1 = kinematics g2
  /\ Taxi.hoverMode (taxi g1) = Taxi.hoverMode (taxi g2)
  /\ keys g1 = keys g2
  /\ gravity c1 = gravity c2
  /\ pixelsPerMeter c1 = pixelsPerMeter c2
  /\ thrusterForce c1 = thrusterForce c2
  /\ regularFlightThrust c1 = regularFlightThrust c2
  /\ hoverThrust c1 = hoverThrust c2
  /\ hoverDamping c1 = hoverDamping c2
  /\ innerWidth g1 = innerWidth g2
  /\ innerHeight g1 = innerHeight g2
  /\ taxiWidth g1 = taxiWidth g2
  /\ taxiHeight g1 = taxiHeight g2.

(** The session with the up and right thrusters held. *)
Definition thrustGame : Game :=
  set_keys (Keys.mk true false false true) sessionGame.

(** The same physics inputs in another guise: gear down, facing right,
    flagged as on the ground, a sprite styled differently, the screen
    inactive. *)
Definition thrustGameOther : Game :=
  {| taxi := Taxi.mk 960 540 0 0 true false true true;
     keys := Keys.mk true false false true;
     innerWidth := 1920;
     innerHeight := 1080;
     taxiSprite := Some (mkSprite 64 32 true 0 0 true false);
     gameScreenActive := false |}.

(** The session configuration with another start position and bot count. *)
Definition sessionConfigOther : Config :=
  mkConfig (gravity sessionConfig) (pixelsPerMeter sessionConfig) (1 # 4) (3 # 4)
    (thrusterForce sessionConfig) (regularFlightThrust sessionConfig)
    (hoverThrust sessionConfig) (hoverDamping sessionConfig) 7.

(** The velocity the damping block of hover mode leaves, as a function of
    the velocity it finds; used to state what [dampVertical] and
    [dampHorizontal] compute. *)
Definition dampedVelocity (hoverDamping deltaTime v : Q) : Q :=
  if Qlt_bool 0 v then
    if Qlt_bool (v - hoverDamping * deltaTime) 0 then 0
    else v - hoverDamping * deltaTime
  else if Qlt_bool v 0 then
    if Qlt_bool 0 (v + hoverDamping * deltaTime) then 0
    else v + hoverDamping * deltaTime
  else v.

(** A key-down event of the hover key: the event's key is ["h"] or ["H"]. *)
Definition isHoverKey (event : KeyboardEvent) : bool :=
  ((key event =? "h") || (key event =? "H"))%string.



(** [leftEdgeGame] with no key held. *)
Definition leftEdgeCoastingGame : Game := set_keys noKeys leftEdgeGame.

(** The session with the taxi one pixel above the lower boundary (1048),
    falling at 100 px/s. *)
Definition landingGame : Game :=
  set_taxi (Taxi.mk 960 1047 0 100 false false false false) sessionGame.

(** ** The game-screen observer *)

Definition set_gameScreenActive (v : bool) (g : Game) : Game :=
  mkGame (taxi g) (keys g) (innerWidth g) (innerHeight g) (taxiSprite g) v.

(** The [MutationObserver] callback [initGame] registers, for one change of
    the game screen's [class] attribute.  On activation it places the sprite
    at the start position and, if the engine is not running, asks for it to be
    started once the audio is warm ([prewarmGameAudio().then(...)]): the
    second component tells whether that start is now pending, and the start
    itself is [start], run later.  On deactivation it stops a running engine
    and hides the sprite.  (The bot sprites it also hides are never read.) *)
Definition onGameScreenClassChange (h : Hooks Game) (r : Run Game) : Run Game * bool :=
  if gameScreenActive (game r) then
    let r :=
      with_game
        (fun g =>
           match taxiSprite g with
           | Some sp =>
               set_taxiSprite
                 (Some (mkSprite (offsetWidth sp) (offsetHeight sp) false
                          (innerWidth g * taxiStartX (config (engine r))
                           - offsetWidth sp / 2)
                          (innerHeight g * taxiStartY (config (engine r)))
                          (flipped sp) true)) g
           | None => g
           end) r in
    (r, negb (isRunning (engine r)))
  else
    let r := if isRunning (engine r) then stop h r else r in
    let r :=
      with_game
        (fun g =>
           match taxiSprite g with
           | Some sp =>
               set_taxiSprite
                 (Some (mkSprite (offsetWidth sp) (offsetHeight sp) (gearImage sp)
                          (styleLeft sp) (styleTop sp) (flipped sp) false)) g
           | None => g
           end) r in
    (r, false).

(** ** The start screen *)

(** The page: the credit counter and the message of the start screen, the
    [hidden] class of the start screen, and the game session, whose
    [gameScreenActive] is the [active] class both scripts look at. *)
Record Page : Type := mkPage {
  credits : Z;
  creditMessage : string;
  startScreenHidden : bool;
  session : Run Game
}.

(** The text [updateCreditMessage] writes; a whole number prints in
    decimal. *)
Definition creditText (n : Z) : string :=
  if (0 <? n)%Z then
    (NilZero.string_of_int (Z.to_int n) ++ " CREDIT"
     ++ (if (1 <? n)%Z then "S" else ""))%string
  else "INSERT COIN TO BEGIN (PRESS KEYS 1 || 2)"%string.

Definition updateCreditMessage (p : Page) : Page :=
  mkPage (credits p) (creditText (credits p)) (startScreenHidden p) (session p).

Definition set_credits (v : Z) (p : Page) : Page :=
  mkPage v (creditMessage p) (startScreenHidden p) (session p).

Definition isGameMode (p : Page) : bool := gameScreenActive (game (session p)).

(** [classList] changes on the two screens. *)
Definition showScreens (hidden active : bool) (p : Page) : Page :=
  mkPage (credits p) (creditMessage p) hidden
    (with_game (set_gameScreenActive active) (session p)).

(** The [keydown] listener of the start screen: coins (1, 2), reset (0),
    start (Enter) and quit (Escape).  The sounds are outside the model. *)
Definition startScreenKeydown (event : KeyboardEvent) (p : Page) : Page :=
  let inGameMode := isGameMode p in
  if (key event =? "Escape")%string then
    if inGameMode then showScreens false false p else p
  else if inGameMode then p
  else if (key event =? "1")%string then
    updateCreditMessage (set_credits (credits p + 1) p)
  else if (key event =? "2")%string then
    updateCreditMessage (set_credits (credits p + 2) p)
  else if (key event =? "0")%string then
    updateCreditMessage (set_credits 0 p)
  else if (key event =? "Enter")%string then
    if (0 <? credits p)%Z then
      showScreens true true (updateCreditMessage (set_credits (credits p - 1) p))
    else p
  else p.

(** The [keydown] listener of the game, on the page. *)
Definition gameKeydown (h : Hooks Game) (now : Q) (event : KeyboardEvent)
    (p : Page) : Page :=
  mkPage (credits p) (creditMessage p) (startScreenHidden p)
    (keydown h now event (session p)).

(** A sequence of key presses on the start-screen listener. *)
Definition startScreenKeys (events : list KeyboardEvent) (p : Page) : Page :=
  fold_left (fun p event => startScreenKeydown event p) events p.

(** ** More notions for statements *)

Definition applyAll {G : Type} (h : Hooks G) (ops : list Op) (r : Run G) : Run G :=
  fold_left (fun r op => apply h op r) ops r.

(** Consecutive frame callbacks. *)
Definition frames {G : Type} (h : Hooks G) (fs : list Frame) (r : Run G) : Run G :=
  fold_left (fun r f => gameLoop h f r) fs r.

Definition isStart (op : Op) : bool :=
  match op with OpStart _ _ _ => true | _ => false end.

(** The statistics counters are not negative, the updates counted never
    exceed [maxFrameSkip] per frame counted, and the published rates are not
    negative. *)
Definition statsConsistent (e : GameEngine) : Prop :=
  (0 <= frameCount (stats e))%Z
  /\ (0 <= updateCount (stats e))%Z
  /\ (updateCount (stats e) <= maxFrameSkip e * frameCount (stats e))%Z
  /\ (0 <= fps (stats e))%Z
  /\ (0 <= ups (stats e))%Z.

(** A key-down event of the pause key, as the game listener reads it. *)
Definition isPauseKey (event : KeyboardEvent) : bool :=
  (toLowerCase (key event) =? "p")%string.

(** Whether an input is a key-down event of the space bar that arrives
    while the game screen is active and the engine is running and not paused;
    as a count, 1 or 0. *)
Definition gearKeyDown (i : Input) (r : Run Game) : nat :=
  match i with
  | KeyDown _ event =>
      if gameScreenActive (game r) && running (engine r)
         && (key event =? " ")%string
      then 1 else 0
  | _ => 0
  end.

Fixpoint gearKeyDowns (h : Hooks Game) (inputs : list Input) (r : Run Game) : nat :=
  match inputs with
  | [] => 0
  | i :: rest => (gearKeyDown i r + gearKeyDowns h rest (step h i r))%nat
  end.

(** No input is a key-down event of the pause key. *)
Definition noPauseKey (inputs : list Input) : bool :=
  forallb (fun i => match i with
                    | KeyDown _ event => negb (isPauseKey event)
                    | _ => true
                    end) inputs.


(** The taxi [initTaxi] sets up. *)
Definition startTaxi (c : Config) (g : Game) : Taxi.t :=
  Taxi.mk (innerWidth g * taxiStartX c) (innerHeight g * taxiStartY c)
    0 0 false false false false.

(** The session with the taxi resting on the ground. *)
Definition groundedGame : Game :=
  set_taxi (Taxi.mk 960 1048 0 0 true false false false) sessionGame.


(** The page at the start: no credit, the start screen shown, the session
    not yet started and its screen inactive. *)
Definition startPage : Page :=
  mkPage 0 (creditText 0) false
    (with_game (set_gameScreenActive false) sessionRun).

Definition set_session (v : Run Game) (p : Page) : Page :=
  mkPage (credits p) (creditMessage p) (startScreenHidden p) v.

(** No key press is [Escape]. *)
Definition noEscape (events : list KeyboardEvent) : bool :=
  forallb (fun event => negb (key event =? "Escape")%string) events.

(** Quit with [Escape], let the observer see the change, release a key,
    pay a credit with [Enter], let the observer see the change, and let the
    start it asked for run. *)
Definition quitAndRestart (c : Config) (released : KeyboardEvent)
    (now resetClock : Q) (first : Frame) (p : Page) : Page * bool :=
  let p := startScreenKeydown (mkKeyboardEvent "Escape") p in
  let p := set_session (fst (onGameScreenClassChange (gameHooks c) (session p))) p in
  let p := set_session (keyup released (session p)) p in
  let p := startScreenKeydown (mkKeyboardEvent "Enter") p in
  let observed := onGameScreenClassChange (gameHooks c) (session p) in
  let p := set_session (fst observed) p in
  (set_session (start (gameHooks c) now resetClock first (session p)) p,
   snd observed).

(** A game in progress with the up thruster held and one credit left. *)
Definition playingPage : Page :=
  mkPage 1 (creditText 1) true
    (with_game (set_keys (Keys.mk true false false false)) startedRun).

(** * Properties *)

(** ** Comparisons *)

Lemma Qlt_bool_iff (a b : Q) : Qlt_bool a b = true <-> a < b.
Proof.
  unfold Qlt_bool. rewrite negb_true_iff.
  split; intro H.
  - apply Qnot_le_lt. intro Hle. apply Qle_bool_iff in Hle. congruence.
  - destruct (Qle_bool b a) eqn:E; [| reflexivity].
    apply Qle_bool_iff in E. exfalso. apply (Qlt_not_le _ _ H E).
Qed.

Lemma Qlt_bool_false (a b : Q) : Qlt_bool a b = false <-> b <= a.
Proof.
  unfold Qlt_bool. rewrite negb_false_iff. apply Qle_bool_iff.
Qed.

Lemma Qle_bool_false (a b : Q) : Qle_bool a b = false <-> b < a.
Proof.
  rewrite <- Qlt_bool_iff. unfold Qlt_bool.
  destruct (Qle_bool a b); simpl; split; congruence.
Qed.

Lemma Qnat_S (k : nat) : Qnat (S k) == Qnat k + 1.
Proof.
  unfold Qnat. rewrite Nat2Z.inj_succ. unfold Z.succ.
  rewrite inject_Z_plus. reflexivity.
Qed.

Lemma Qnat_nonneg (k : nat) : 0 <= Qnat k.
Proof.
  unfold Qnat. change 0 with (inject_Z 0). rewrite <- Zle_Qle. lia.
Qed.

(** Case analysis on a comparison the code makes. *)
Ltac cases_on b :=
  let E := fresh "E" in
  destruct b eqn:E;
  [ first [ apply Qlt_bool_iff in E | apply Qle_bool_iff in E | idtac ]
  | first [ apply Qlt_bool_false in E | apply Qle_bool_false in E | idtac ] ].

(** ** The constructor *)

Lemma orDefault_nonzero (v : option Q) (d : Q) : ~ d == 0 -> ~ orDefault v d == 0.
Proof.
  intros Hd. unfold orDefault. destruct v as [n |]; [| exact Hd].
  destruct (Qeq_bool n 0) eqn:E; [exact Hd |].
  apply Qeq_bool_neq. exact E.
Qed.

Lemma orDefault_zero (n d : Q) : n == 0 -> orDefault (Some n) d = d.
Proof.
  intros Hn. unfold orDefault. apply Qeq_bool_iff in Hn. rewrite Hn. reflexivity.
Qed.

(** C9, as stated, fails: with [targetUPS: 0] the divisor of
    [1000 / this.targetUPS] is not zero.  The constructor reads
    [config.targetUPS || 60], so the falsy [0] is replaced by [60] and the
    update interval is [1000/60] milliseconds. *)
Lemma targetUPS_zero_is_defaulted :
  ~ targetUPS (constructor (onlyTargetUPS 0)) == 0
  /\ targetUPS (constructor (onlyTargetUPS 0)) = 60
  /\ updateTime (constructor (onlyTargetUPS 0)) == 50 # 3.
Proof.
  split; [| split].
  - intro H. vm_compute in H. discriminate H.
  - reflexivity.
  - reflexivity.
Qed.

(** C9, amended: for every options object the update interval is
    [1000 / targetUPS] with a divisor that is never zero; a [targetUPS] of
    zero (like an absent one) is replaced by the default 60, giving the
    interval [1000/60]. *)
Theorem constructor_never_divides_by_zero (c : Options) :
  updateTime (constructor c) = 1000 / targetUPS (constructor c)
  /\ ~ targetUPS (constructor c) == 0
  /\ (forall v, opt_targetUPS c = Some v -> v == 0 ->
        targetUPS (constructor c) = 60 /\ updateTime (constructor c) == 50 # 3)
  /\ (opt_targetUPS c = None ->
        targetUPS (constructor c) = 60 /\ updateTime (constructor c) == 50 # 3).
Proof.
  split; [reflexivity |]. split; [| split].
  - simpl. apply orDefault_nonzero. intro H. vm_compute in H. discriminate H.
  - intros v Hv Hz. simpl. rewrite Hv, (orDefault_zero _ _ Hz).
    split; reflexivity.
  - intros Hv. simpl. rewrite Hv. split; reflexivity.
Qed.

(** ** The scheduler *)

Section SchedulerFacts.

Context {G : Type} (h : Hooks G).

Lemma engine_invoke (hook : option (G -> G)) (c : HookCall) (r : Run G) :
  engine (invoke hook c r) = engine r.
Proof. destruct hook; reflexivity. Qed.

Lemma updateOnce_engine (r : Run G) :
  updateTime (engine (updateOnce h r)) = updateTime (engine r)
  /\ maxFrameSkip (engine (updateOnce h r)) = maxFrameSkip (engine r)
  /\ accumulator (engine (updateOnce h r))
     = accumulator (engine r) - updateTime (engine r).
Proof.
  unfold updateOnce. simpl. rewrite !engine_invoke. auto.
Qed.


(** The loop leaves the interval and the ceiling alone, and with a positive
    interval it never drives a non-negative accumulator below zero. *)
Lemma updateLoop_engine (fuel : nat) : forall (n : Z) (r : Run G),
  updateTime (engine (updateLoop h fuel n r)) = updateTime (engine r)
  /\ maxFrameSkip (engine (updateLoop h fuel n r)) = maxFrameSkip (engine r)
  /\ (0 < updateTime (engine r) -> 0 <= accumulator (engine r) ->
      0 <= accumulator (engine (updateLoop h fuel n r))).
Proof.
  induction fuel as [| fuel IH]; intros n r; simpl.
  - auto.
  - destruct (Qle_bool (updateTime (engine r)) (accumulator (engine r))) eqn:Hge;
      simpl; [| auto].
    destruct (n <? maxFrameSkip (engine r))%Z; [| auto].
    destruct (updateOnce_engine r) as (Hut & Hmfs & Hacc).
    destruct (IH (n + 1)%Z (updateOnce h r)) as (IHut & IHmfs & IHacc).
    rewrite IHut, IHmfs, Hut, Hmfs. repeat split.
    intros Hpos _. apply IHacc.
    + rewrite Hut. exact Hpos.
    + rewrite Hacc. apply Qle_bool_iff in Hge. lra.
Qed.

Lemma updateOnce_counter (r : Run G) :
  updateCount (stats (engine (updateOnce h r)))
  = (updateCount (stats (engine r)) + 1)%Z.
Proof.
  unfold updateOnce. simpl. rewrite !engine_invoke. reflexivity.
Qed.

(** The fuel given by [gameLoop] never cuts the loop short.  The local
    counter of the source moves in step with [stats.updateCount]; when the
    model's loop returns, the condition of the [while], taken at the value
    the local counter has reached, is false. *)
Lemma updateLoop_exit (fuel : nat) : forall (n : Z) (r : Run G),
  fuel = Z.to_nat (maxFrameSkip (engine r) - n) ->
  let r' := updateLoop h fuel n r in
  let n' := (n + (updateCount (stats (engine r'))
                  - updateCount (stats (engine r))))%Z in
  Qle_bool (updateTime (engine r')) (accumulator (engine r'))
  && (n' <? maxFrameSkip (engine r'))%Z = false.
Proof.
  induction fuel as [| fuel IH]; intros n r Hfuel; simpl.
  - apply andb_false_iff. right. apply Z.ltb_ge. lia.
  - destruct (Qle_bool (updateTime (engine r)) (accumulator (engine r))
              && (n <? maxFrameSkip (engine r))%Z) eqn:Hguard.
    + destruct (updateOnce_engine r) as (_ & Hmfs & _).
      pose proof (updateOnce_counter r) as Hcount.
      specialize (IH (n + 1)%Z (updateOnce h r)).
      cbv zeta in IH. rewrite Hcount in IH.
      replace (n + (updateCount (stats (engine (updateLoop h fuel (n + 1) (updateOnce h r))))
                    - updateCount (stats (engine r))))%Z
        with (n + 1 + (updateCount (stats (engine (updateLoop h fuel (n + 1) (updateOnce h r))))
                       - (updateCount (stats (engine r)) + 1)))%Z by lia.
      apply IH. rewrite Hmfs. lia.
    + replace (n + (updateCount (stats (engine r))
                    - updateCount (stats (engine r))))%Z with n by lia.
      exact Hguard.
Qed.

(** The loop as [gameLoop] calls it runs to completion: it returns only
    when the condition of the [while] is false for the number of updates it
    has made (the growth of [stats.updateCount]). *)
Theorem updateLoop_runs_to_completion (r : Run G) :
  let r' := updateLoop h (Z.to_nat (maxFrameSkip (engine r))) 0 r in
  let made := (updateCount (stats (engine r'))
               - updateCount (stats (engine r)))%Z in
  Qle_bool (updateTime (engine r')) (accumulator (engine r'))
  && (made <? maxFrameSkip (engine r'))%Z = false.
Proof.
  pose proof (updateLoop_exit (Z.to_nat (maxFrameSkip (engine r))) 0 r) as Hexit.
  cbv zeta in *. rewrite Z.add_0_l in Hexit. apply Hexit.
  rewrite Z.sub_0_r. reflexivity.
Qed.

Lemma gameLoop_settings (f : Frame) (r : Run G) :
  updateTime (engine (gameLoop h f r)) = updateTime (engine r)
  /\ maxFrameSkip (engine (gameLoop h f r)) = maxFrameSkip (engine r).
Proof.
  unfold gameLoop.
  destruct (isRunning (engine r)); simpl; [| auto].
  destruct (isPaused (engine r)); simpl; [auto |].
  match goal with
  | |- context [updateLoop h ?fuel ?n ?r0] =>
      destruct (updateLoop_engine fuel n r0) as (Hut & Hmfs & _);
      set (r1 := updateLoop h fuel n r0) in *
  end.
  destruct (Qlt_bool _ _); simpl; rewrite !engine_invoke; simpl;
    rewrite Hut, Hmfs; unfold updateStats; simpl;
    destruct (Qle_bool 1000 _); auto.
Qed.

(** One processed frame re-establishes the bound, whatever the accumulator
    was, as long as it and the frame's delta are not negative. *)
Lemma gameLoop_bounded (f : Frame) (r : Run G) :
  0 < updateTime (engine r) ->
  (0 <= maxFrameSkip (engine r))%Z ->
  accumulatorBounded (engine r) ->
  (running (engine r) = true -> lastFrameTime (engine r) <= currentTime f) ->
  accumulatorBounded (engine (gameLoop h f r)).
Proof.
  intros Hut Hmfs [Hlo Hhi] Hdelta. unfold gameLoop, running in *.
  destruct (isRunning (engine r)); simpl in *; [| split; assumption].
  destruct (isPaused (engine r)); simpl in *; [split; assumption |].
  specialize (Hdelta eq_refl).
  match goal with
  | |- context [updateLoop h ?fuel ?n ?r0] =>
      destruct (updateLoop_engine fuel n r0) as (Eut & Emfs & Eacc);
      set (r1 := updateLoop h fuel n r0) in *
  end.
  assert (Eut' : updateTime (engine r1) = updateTime (engine r)).
  { rewrite Eut. simpl. unfold updateStats. simpl.
    destruct (Qle_bool 1000 _); reflexivity. }
  assert (Emfs' : maxFrameSkip (engine r1) = maxFrameSkip (engine r)).
  { rewrite Emfs. simpl. unfold updateStats. simpl.
    destruct (Qle_bool 1000 _); reflexivity. }
  assert (Hacc1 : 0 <= accumulator (engine r1)).
  { apply Eacc; simpl; unfold updateStats; simpl;
      destruct (Qle_bool 1000 _); simpl; lra. }
  assert (Hceil : 0 <= updateTime (engine r) * inject_Z (maxFrameSkip (engine r))).
  { apply Qmult_le_0_compat; [lra |].
    change 0 with (inject_Z 0). rewrite <- Zle_Qle. exact Hmfs. }
  unfold accumulatorBounded.
  cases_on (Qlt_bool (updateTime (engine r1) * inject_Z (maxFrameSkip (engine r1)))
                     (accumulator (engine r1)));
    simpl; rewrite !engine_invoke; simpl; rewrite ?Eut', ?Emfs' in *; split;
    try lra; try exact Hacc1.
Qed.

Lemma apply_settings (op : Op) (r : Run G) :
  updateTime (engine (apply h op r)) = updateTime (engine r)
  /\ maxFrameSkip (engine (apply h op r)) = maxFrameSkip (engine r).
Proof.
  destruct op as [now resetClock first | f | | now |]; simpl.
  - unfold start. destruct (isRunning (engine r)); [auto |].
    match goal with
    | |- context [gameLoop h ?f0 ?r0] =>
        destruct (gameLoop_settings f0 r0) as (-> & ->)
    end.
    rewrite !engine_invoke. auto.
  - apply gameLoop_settings.
  - unfold pause. destruct (negb _ || _); [auto |].
    rewrite !engine_invoke. auto.
  - unfold resume. destruct (negb _ || _); [auto |].
    rewrite !engine_invoke. auto.
  - unfold stop. destruct (negb _); [auto |].
    rewrite !engine_invoke. simpl.
    destruct (frameId (engine r)) as [id |]; [destruct (id =? 0)%Z |]; auto.
Qed.

Lemma apply_bounded (op : Op) (r : Run G) :
  0 < updateTime (engine r) ->
  (0 <= maxFrameSkip (engine r))%Z ->
  accumulatorBounded (engine r) ->
  match op with
  | OpFrame f => running (engine r) = true -> lastFrameTime (engine r) <= currentTime f
  | _ => True
  end ->
  accumulatorBounded (engine (apply h op r)).
Proof.
  intros Hut Hmfs Hb Hdelta.
  destruct op as [now resetClock first | f | | now |]; simpl.
  - unfold start. destruct (isRunning (engine r)); [exact Hb |].
    apply gameLoop_bounded; rewrite ?engine_invoke; simpl; try assumption.
    + unfold accumulatorBounded. simpl. split; [lra |].
      apply Qmult_le_0_compat; [lra |].
      change 0 with (inject_Z 0). rewrite <- Zle_Qle. exact Hmfs.
    + intros _. lra.
  - apply gameLoop_bounded; assumption.
  - unfold pause. destruct (negb _ || _); [exact Hb |].
    rewrite !engine_invoke. exact Hb.
  - unfold resume. destruct (negb _ || _); [exact Hb |].
    rewrite !engine_invoke. exact Hb.
  - unfold stop. destruct (negb _); [exact Hb |].
    rewrite !engine_invoke. simpl.
    destruct (frameId (engine r)) as [id |]; [destruct (id =? 0)%Z |]; exact Hb.
Qed.

Lemma visited_bounded (ops : list Op) : forall (r : Run G),
  0 < updateTime (engine r) ->
  (0 <= maxFrameSkip (engine r))%Z ->
  accumulatorBounded (engine r) ->
  deltasNonNegative h ops r ->
  Forall (fun r' => accumulatorBounded (engine r')) (visited h ops r).
Proof.
  induction ops as [| op ops IH]; intros r Hut Hmfs Hb Hd; simpl.
  - constructor.
  - destruct Hd as [Hop Hrest].
    destruct (apply_settings op r) as (Eut & Emfs).
    assert (Hb' : accumulatorBounded (engine (apply h op r))).
    { apply apply_bounded; assumption. }
    constructor; [exact Hb' |].
    apply IH; try assumption.
    + rewrite Eut. exact Hut.
    + rewrite Emfs. exact Hmfs.
Qed.

Lemma updateStats_fields (d now : Q) (e : GameEngine) :
  updateTime (updateStats d now e) = updateTime e
  /\ maxFrameSkip (updateStats d now e) = maxFrameSkip e
  /\ accumulator (updateStats d now e) = accumulator e.
Proof.
  unfold updateStats. destruct (Qle_bool 1000 _); simpl; auto.
Qed.



End SchedulerFacts.

Lemma updateTime_positive (c : Options) :
  0 < targetUPS (constructor c) -> 0 < updateTime (constructor c).
Proof.
  intros H. simpl in *. apply Qlt_shift_div_l; [exact H | lra].
Qed.

(** C1: start from a freshly constructed engine whose [targetUPS] is positive
    and whose [maxFrameSkip] is not negative, and perform any sequence of
    [start], frame callbacks, [pause], [resume] and [stop] in which every
    processed frame has a non-negative delta.  After each operation (so, after
    each frame callback) the accumulator lies in
    [0, updateTime * maxFrameSkip]. *)
Theorem accumulator_bound {G : Type} (h : Hooks G) (c : Options) (g0 : G)
    (ops : list Op) :
  0 < targetUPS (constructor c) ->
  (0 <= maxFrameSkip (constructor c))%Z ->
  deltasNonNegative h ops (mkRun (constructor c) g0 []) ->
  Forall (fun r => accumulatorBounded (engine r))
         (visited h ops (mkRun (constructor c) g0 [])).
Proof.
  intros Hups Hmfs Hd.
  apply visited_bounded; try assumption.
  - apply updateTime_positive. exact Hups.
  - unfold accumulatorBounded. change (accumulator (engine _)) with 0.
    split; [lra |].
    apply Qmult_le_0_compat.
    + apply Qlt_le_weak. apply (updateTime_positive c Hups).
    + change 0 with (inject_Z 0). rewrite <- Zle_Qle. exact Hmfs.
Qed.

Lemma accumulator_bound_session :
  Forall (fun r => accumulatorBounded (engine r))
         (visited sessionHooks sessionOps sessionRun).
Proof.
  apply (accumulator_bound sessionHooks initGameOptions sessionGame sessionOps).
  - reflexivity.
  - discriminate.
  - vm_compute. intuition discriminate.
Defined.



(** ** The physics update *)

Ltac break_ifs :=
  repeat match goal with
         | |- context [if ?b then _ else _] => destruct b eqn:?
         end.

Ltac break_ifs_Q :=
  repeat match goal with
         | |- context [if ?b then _ else _] =>
             let E := fresh "E" in
             destruct b eqn:E;
             [ try apply Qlt_bool_iff in E | try apply Qlt_bool_false in E ]
         end.

Lemma dampVertical_eq (hd dt : Q) (t : Taxi.t) :
  dampVertical hd dt t = Taxi.set_vy (dampedVelocity hd dt (Taxi.vy t)) t.
Proof.
  destruct t as [x y vx vy og hm fr lg].
  unfold dampVertical, dampedVelocity, sub_vy, add_vy. simpl.
  break_ifs; reflexivity.
Qed.

Lemma dampHorizontal_eq (hd dt : Q) (t : Taxi.t) :
  dampHorizontal hd dt t = Taxi.set_vx (dampedVelocity hd dt (Taxi.vx t)) t.
Proof.
  destruct t as [x y vx vy og hm fr lg].
  unfold dampHorizontal, dampedVelocity, sub_vx, add_vx. simpl.
  break_ifs; reflexivity.
Qed.

(** Damping never changes the sign of a velocity, and leaves zero alone. *)
Lemma dampedVelocity_sign (hd dt v : Q) :
  (v <= 0 -> dampedVelocity hd dt v <= 0)
  /\ (0 <= v -> 0 <= dampedVelocity hd dt v)
  /\ (v == 0 -> dampedVelocity hd dt v == 0).
Proof.
  unfold dampedVelocity. break_ifs_Q; repeat split; intros; lra.
Qed.

(** Runs the straight-line part of [integrate] on a taxi and a key set
    given field by field. *)
Ltac run_integrate :=
  unfold integrate; cbv zeta;
  rewrite ?dampVertical_eq, ?dampHorizontal_eq;
  cbv [thrustUp thrustDown thrustLeft thrustRight sub_vy add_vy sub_vx add_vx
       moveX moveY Taxi.set_x Taxi.set_y Taxi.set_vx Taxi.set_vy
       Taxi.set_facingRight Taxi.x Taxi.y Taxi.vx Taxi.vy Taxi.onGround
       Taxi.hoverMode Taxi.facingRight Taxi.landingGear
       Keys.w Keys.s Keys.a Keys.d].

(** Position follows the new velocity: [p += v * dt] after [v] is updated. *)
Lemma integrate_position (c : Config) (dt : Q) (g : Game) :
  Taxi.x (integrate c dt g) = Taxi.x (taxi g) + Taxi.vx (integrate c dt g) * dt
  /\ Taxi.y (integrate c dt g) = Taxi.y (taxi g) + Taxi.vy (integrate c dt g) * dt.
Proof.
  destruct (taxi g) as [x y vx vy og hm fr lg] eqn:Et.
  destruct (keys g) as [kw ks ka kd] eqn:Ek.
  unfold integrate. rewrite Et, Ek.
  destruct hm, kw, ks, ka, kd; run_integrate; split; reflexivity.
Qed.

Lemma integrate_flags (c : Config) (dt : Q) (g : Game) :
  Taxi.hoverMode (integrate c dt g) = Taxi.hoverMode (taxi g)
  /\ Taxi.landingGear (integrate c dt g) = Taxi.landingGear (taxi g)
  /\ Taxi.onGround (integrate c dt g) = Taxi.onGround (taxi g)
  /\ (Keys.a (keys g) = false -> Keys.d (keys g) = false ->
      Taxi.facingRight (integrate c dt g) = Taxi.facingRight (taxi g)).
Proof.
  destruct (taxi g) as [x y vx vy og hm fr lg] eqn:Et.
  destruct (keys g) as [kw ks ka kd] eqn:Ek.
  unfold integrate. rewrite Et, Ek.
  destruct hm, kw, ks, ka, kd; run_integrate; repeat split;
    simpl; intros; congruence.
Qed.

Lemma collide_flags (g : Game) (t : Taxi.t) :
  Taxi.hoverMode (collide g t) = Taxi.hoverMode t
  /\ Taxi.landingGear (collide g t) = Taxi.landingGear t
  /\ Taxi.facingRight (collide g t) = Taxi.facingRight t.
Proof.
  unfold collide. cbv zeta. break_ifs; simpl; auto.
Qed.

(** What the horizontal collision check does to [x] and [vx]. *)
Lemma collide_horizontal (g : Game) (t : Taxi.t) :
  (Taxi.x t < leftBoundary g ->
   Taxi.x (collide g t) = leftBoundary g /\ Taxi.vx (collide g t) = 0)
  /\ (leftBoundary g <= Taxi.x t -> rightBoundary g < Taxi.x t ->
      Taxi.x (collide g t) = rightBoundary g /\ Taxi.vx (collide g t) = 0)
  /\ (leftBoundary g <= Taxi.x t -> Taxi.x t <= rightBoundary g ->
      Taxi.x (collide g t) = Taxi.x t /\ Taxi.vx (collide g t) = Taxi.vx t).
Proof.
  unfold collide. cbv zeta.
  cases_on (Qlt_bool (Taxi.x t) (leftBoundary g));
    [| cases_on (Qlt_bool (rightBoundary g) (Taxi.x t))];
    break_ifs; simpl; repeat split; intros; auto; lra.
Qed.

(** What the vertical collision check does to [y], [vy] and [onGround]. *)
Lemma collide_vertical (g : Game) (t : Taxi.t) :
  (Taxi.y t < 0 ->
   Taxi.y (collide g t) = 0 /\ Taxi.vy (collide g t) = 0
   /\ Taxi.onGround (collide g t) = false)
  /\ (0 <= Taxi.y t -> bottomBoundary g <= Taxi.y t ->
      Taxi.y (collide g t) = bottomBoundary g /\ Taxi.vy (collide g t) = 0
      /\ Taxi.onGround (collide g t) = true)
  /\ (0 <= Taxi.y t -> Taxi.y t < bottomBoundary g ->
      Taxi.y (collide g t) = Taxi.y t /\ Taxi.vy (collide g t) = Taxi.vy t
      /\ Taxi.onGround (collide g t) = false).
Proof.
  unfold collide, topBoundary. cbv zeta.
  set (t1 := if Qlt_bool (Taxi.x t) (leftBoundary g) then _ else _).
  assert (Hy : Taxi.y t1 = Taxi.y t) by (subst t1; break_ifs; reflexivity).
  assert (Hvy : Taxi.vy t1 = Taxi.vy t) by (subst t1; break_ifs; reflexivity).
  rewrite <- Hy, <- Hvy. clearbody t1.
  cases_on (Qlt_bool (Taxi.y t1) 0);
    [| cases_on (Qle_bool (bottomBoundary g) (Taxi.y t1))];
    simpl; repeat split; intros; auto; lra.
Qed.


(** Without the right thruster, a taxi that is not moving right does not
    start to. *)
Lemma integrate_vx_nonpositive (c : Config) (dt : Q) (g : Game) :
  0 <= dt ->
  0 <= thrusterForce c ->
  Keys.d (keys g) = false ->
  Taxi.vx (taxi g) <= 0 ->
  Taxi.vx (integrate c dt g) <= 0.
Proof.
  intros Hdt Htf Hd Hvx.
  assert (Hthrust : 0 <= thrusterForce c * dt) by (apply Qmult_le_0_compat; assumption).
  destruct (taxi g) as [x y vx vy og hm fr lg] eqn:Et.
  destruct (keys g) as [kw ks ka kd] eqn:Ek.
  simpl in Hd, Hvx. subst kd.
  pose proof (proj1 (dampedVelocity_sign (hoverDamping c) dt vx) Hvx) as Hdamp.
  unfold integrate. rewrite Et, Ek.
  destruct hm, kw, ks, ka; run_integrate; lra.
Qed.

(** C3, as stated, fails in its last part: five pixels left of the boundary
    and moving left at 50 px/s, but with the right thruster held and an
    update of 1/8 s, the thrust (1500 px/s^2) turns the velocity to
    137.5 px/s before the position is integrated; the taxi ends at
    [halfWidth + 12.1875], inside the screen, with that velocity. *)
Lemma right_thrust_escapes_left_boundary :
  Taxi.x (taxi leftEdgeGame) == leftBoundary leftEdgeGame - 5
  /\ Taxi.vx (taxi leftEdgeGame) == - (50)
  /\ ~ Taxi.x (taxi (updateGame sessionConfig (1 # 8) leftEdgeGame))
        == leftBoundary leftEdgeGame
  /\ ~ Taxi.vx (taxi (updateGame sessionConfig (1 # 8) leftEdgeGame)) == 0
  /\ Taxi.x (taxi (updateGame sessionConfig (1 # 8) leftEdgeGame)) == 32 + (195 # 16)
  /\ Taxi.vx (taxi (updateGame sessionConfig (1 # 8) leftEdgeGame)) == 275 # 2.
Proof.
  repeat split; try reflexivity; intro H; vm_compute in H; discriminate H.
Qed.

(** C3, amended: whenever the integrated position lies beyond a screen
    boundary on an axis, the update leaves the position on that axis exactly
    on a boundary it crossed and the velocity component exactly zero; with a
    window at least as large as the sprite the position always ends within
    [halfWidth, screenWidth - halfWidth] and [0, screenHeight - height].  In
    particular a taxi at [x = halfWidth - 5] with [vx = -50] ends one update
    ([dt > 0]) with [x = halfWidth] and [vx = 0], provided the right thruster
    key is not held and the thruster force is not negative. *)
Theorem boundary_inelasticity (c : Config) (dt : Q) (g : Game) :
  let t1 := integrate c dt g in
  let t2 := taxi (updateGame c dt g) in
  (Taxi.x t1 < leftBoundary g \/ rightBoundary g < Taxi.x t1 ->
   Taxi.vx t2 = 0
   /\ ((Taxi.x t1 < leftBoundary g /\ Taxi.x t2 = leftBoundary g)
       \/ (rightBoundary g < Taxi.x t1 /\ Taxi.x t2 = rightBoundary g)))
  /\ (Taxi.y t1 < 0 \/ bottomBoundary g < Taxi.y t1 ->
      Taxi.vy t2 = 0
      /\ ((Taxi.y t1 < 0 /\ Taxi.y t2 = 0)
          \/ (bottomBoundary g < Taxi.y t1 /\ Taxi.y t2 = bottomBoundary g)))
  /\ (leftBoundary g <= rightBoundary g ->
      leftBoundary g <= Taxi.x t2 /\ Taxi.x t2 <= rightBoundary g)
  /\ (0 <= bottomBoundary g ->
      0 <= Taxi.y t2 /\ Taxi.y t2 <= bottomBoundary g)
  /\ (0 < dt ->
      Taxi.x (taxi g) == leftBoundary g - 5 ->
      Taxi.vx (taxi g) == - (50) ->
      Keys.d (keys g) = false ->
      0 <= thrusterForce c ->
      Taxi.x t2 = leftBoundary g /\ Taxi.vx t2 = 0).
Proof.
  intros t1 t2. subst t2. unfold updateGame. cbn [taxi set_taxi]. fold t1.
  destruct (collide_horizontal g t1) as (HL & HR & HM).
  destruct (collide_vertical g t1) as (VT & VB & VM).
  split; [| split; [| split; [| split]]].
  - intros Hcross.
    destruct (Qlt_le_dec (Taxi.x t1) (leftBoundary g)) as [Hl | Hl].
    + destruct (HL Hl) as [Hx Hv]. split; [exact Hv | left; auto].
    + destruct Hcross as [Hc | Hc]; [lra |].
      destruct (HR Hl Hc) as [Hx Hv]. split; [exact Hv | right; auto].
  - intros Hcross.
    destruct (Qlt_le_dec (Taxi.y t1) 0) as [Hl | Hl].
    + destruct (VT Hl) as (Hy & Hv & _). split; [exact Hv | left; auto].
    + destruct Hcross as [Hc | Hc]; [lra |].
      destruct (VB Hl (Qlt_le_weak _ _ Hc)) as (Hy & Hv & _).
      split; [exact Hv | right; auto].
  - intros Hgeo.
    destruct (Qlt_le_dec (Taxi.x t1) (leftBoundary g)) as [Hl | Hl].
    + destruct (HL Hl) as [-> _]. lra.
    + destruct (Qlt_le_dec (rightBoundary g) (Taxi.x t1)) as [Hr | Hr].
      * destruct (HR Hl Hr) as [-> _]. lra.
      * destruct (HM Hl Hr) as [-> _]. lra.
  - intros Hgeo.
    destruct (Qlt_le_dec (Taxi.y t1) 0) as [Hl | Hl].
    + destruct (VT Hl) as (-> & _). lra.
    + destruct (Qlt_le_dec (Taxi.y t1) (bottomBoundary g)) as [Hb | Hb].
      * destruct (VM Hl Hb) as (-> & _). lra.
      * destruct (VB Hl Hb) as (-> & _). lra.
  - intros Hdt Hx Hvx Hd Htf.
    apply HL.
    destruct (integrate_position c dt g) as [Ex _]. fold t1 in Ex.
    assert (Hv1 : Taxi.vx t1 <= 0).
    { apply integrate_vx_nonpositive; try assumption; lra. }
    assert (Hmove : 0 <= (- Taxi.vx t1) * dt).
    { apply Qmult_le_0_compat; lra. }
    rewrite Ex. lra.
Qed.

Lemma boundary_inelasticity_left_edge :
  Taxi.x (taxi (updateGame sessionConfig (1 # 60) leftEdgeCoastingGame))
  = leftBoundary leftEdgeCoastingGame
  /\ Taxi.vx (taxi (updateGame sessionConfig (1 # 60) leftEdgeCoastingGame)) = 0.
Proof.
  apply (proj2 (proj2 (proj2 (proj2
           (boundary_inelasticity sessionConfig (1 # 60) leftEdgeCoastingGame)))));
    try reflexivity; discriminate.
Defined.

(** C7, as stated, fails: in a window exactly as high as the sprite the
    lower boundary is 0.  With the up thruster held the taxi is pushed above
    the top, clamped to [y = 0] by the upper-boundary branch, and [onGround]
    is set to false although [y] equals the lower boundary. *)
Lemma top_clamp_on_lower_boundary_not_grounded :
  bottomBoundary flatWindowGame == 0
  /\ Taxi.y (taxi (updateGame sessionConfig (1 # 60) flatWindowGame))
     == bottomBoundary flatWindowGame
  /\ Taxi.onGround (taxi (updateGame sessionConfig (1 # 60) flatWindowGame)) = false.
Proof.
  split; [reflexivity | split; reflexivity].
Qed.

(** C7, amended: after every update, [onGround] true implies that [y] is
    the lower boundary [screenHeight - spriteHeight]; the converse holds
    whenever that boundary is not 0, the upper boundary.  [onGround] is false
    after every upper-boundary clamp and whenever the taxi ends strictly
    inside the vertical range. *)
Theorem onGround_characterization (c : Config) (dt : Q) (g : Game) :
  let t1 := integrate c dt g in
  let t2 := taxi (updateGame c dt g) in
  (Taxi.onGround t2 = true -> Taxi.y t2 = bottomBoundary g)
  /\ (~ bottomBoundary g == 0 ->
      (Taxi.onGround t2 = true <-> Taxi.y t2 == bottomBoundary g))
  /\ (Taxi.y t1 < 0 -> Taxi.y t2 = 0 /\ Taxi.onGround t2 = false)
  /\ (0 < Taxi.y t2 -> Taxi.y t2 < bottomBoundary g -> Taxi.onGround t2 = false).
Proof.
  intros t1 t2. subst t2. unfold updateGame. cbn [taxi set_taxi]. fold t1.
  destruct (collide_vertical g t1) as (VT & VB & VM).
  destruct (Qlt_le_dec (Taxi.y t1) 0) as [Hl | Hl].
  - destruct (VT Hl) as (Hy & _ & Hg). rewrite Hy, Hg.
    split; [discriminate |]. split; [| split; [auto | intros; lra]].
    intros Hne. split; [discriminate |].
    intros Heq. exfalso. apply Hne. symmetry. exact Heq.
  - destruct (Qlt_le_dec (Taxi.y t1) (bottomBoundary g)) as [Hb | Hb].
    + destruct (VM Hl Hb) as (Hy & _ & Hg). rewrite Hy, Hg.
      repeat split; intros; try discriminate; try lra.
    + destruct (VB Hl Hb) as (Hy & _ & Hg). rewrite Hy, Hg.
      repeat split; intros; try reflexivity; try lra.
Qed.

Lemma onGround_characterization_landing :
  Taxi.onGround (taxi (updateGame sessionConfig (1 # 60) landingGame)) = true
  <-> Taxi.y (taxi (updateGame sessionConfig (1 # 60) landingGame))
      == bottomBoundary landingGame.
Proof.
  apply (proj1 (proj2 (onGround_characterization sessionConfig (1 # 60) landingGame))).
  intro H. vm_compute in H. discriminate H.
Defined.

(** The mode and the held keys survive an update. *)
Lemma updateGame_mode_keys (c : Config) (dt : Q) (g : Game) :
  Taxi.hoverMode (taxi (updateGame c dt g)) = Taxi.hoverMode (taxi g)
  /\ keys (updateGame c dt g) = keys g.
Proof.
  unfold updateGame. cbn [taxi set_taxi].
  destruct (collide_flags g (integrate c dt g)) as (-> & _).
  destruct (integrate_flags c dt g) as (-> & _).
  split; reflexivity.
Qed.

(** C10: an update changes nothing but the taxi's [x], [y], [vx], [vy],
    [onGround] and [facingRight]: [hoverMode] and [landingGear] keep their
    values, as do the held keys, the window and the sprite; and when neither
    [a] nor [d] is held, [facingRight] keeps its value too. *)
Theorem updateGame_frame_condition (c : Config) (dt : Q) (g : Game) :
  Taxi.hoverMode (taxi (updateGame c dt g)) = Taxi.hoverMode (taxi g)
  /\ Taxi.landingGear (taxi (updateGame c dt g)) = Taxi.landingGear (taxi g)
  /\ keys (updateGame c dt g) = keys g
  /\ innerWidth (updateGame c dt g) = innerWidth g
  /\ innerHeight (updateGame c dt g) = innerHeight g
  /\ taxiSprite (updateGame c dt g) = taxiSprite g
  /\ gameScreenActive (updateGame c dt g) = gameScreenActive g
  /\ (Keys.a (keys g) = false -> Keys.d (keys g) = false ->
      Taxi.facingRight (taxi (updateGame c dt g)) = Taxi.facingRight (taxi g)).
Proof.
  unfold updateGame. cbn [taxi set_taxi].
  destruct (collide_flags g (integrate c dt g)) as (Hhover & Hgear & Hface).
  destruct (integrate_flags c dt g) as (Ihover & Igear & _ & Iface).
  rewrite Hhover, Hgear, Hface, Ihover, Igear.
  repeat split. exact Iface.
Qed.

(** In hover mode with the auto-derived hover thrust and neither [w] nor
    [s] held, a taxi with no vertical velocity gets none: the damping has
    nothing to remove and the hover thrust cancels gravity. *)
Lemma hover_step (c : Config) (dt : Q) (g : Game) :
  hoverThrust c = None ->
  Taxi.hoverMode (taxi g) = true ->
  Keys.w (keys g) = false ->
  Keys.s (keys g) = false ->
  Taxi.vy (taxi g) == 0 ->
  Taxi.vy (taxi (updateGame c dt g)) == 0.
Proof.
  intros Hthrust Hhover Hw Hs Hvy.
  assert (Hint : Taxi.vy (integrate c dt g) == 0).
  { destruct (taxi g) as [x y vx vy og hm fr lg] eqn:Et.
    destruct (keys g) as [kw ks ka kd] eqn:Ek.
    simpl in Hhover, Hw, Hs, Hvy. subst hm kw ks.
    pose proof (proj2 (proj2 (dampedVelocity_sign (hoverDamping c) dt vy)) Hvy) as Hdamp.
    unfold integrate. rewrite Et, Ek, Hthrust.
    destruct ka, kd; run_integrate; lra. }
  unfold updateGame. cbn [taxi set_taxi].
  destruct (collide_vertical g (integrate c dt g)) as (VT & VB & VM).
  destruct (Qlt_le_dec (Taxi.y (integrate c dt g)) 0) as [Hl | Hl].
  - destruct (VT Hl) as (_ & -> & _). reflexivity.
  - destruct (Qlt_le_dec (Taxi.y (integrate c dt g)) (bottomBoundary g)) as [Hb | Hb].
    + destruct (VM Hl Hb) as (_ & -> & _). exact Hint.
    + destruct (VB Hl Hb) as (_ & -> & _). reflexivity.
Qed.

(** C5: in hover mode with [hoverThrust] left [null] in the configuration
    (so that it is derived as [gravity * pixelsPerMeter]), a taxi with
    [vy = 0] and no key held has [vy = 0] after every update, for every [dt]
    and any number of updates; boundary contact does not matter. *)
Theorem hover_steady_state (c : Config) (dt : Q) (n : nat) (g : Game) :
  hoverThrust c = None ->
  Taxi.hoverMode (taxi g) = true ->
  keys g = noKeys ->
  Taxi.vy (taxi g) == 0 ->
  Forall (fun g' => Taxi.vy (taxi g') == 0) (trajectory c dt n g).
Proof.
  intros Hthrust. revert g.
  induction n as [| n IH]; intros g Hhover Hkeys Hvy; simpl.
  - constructor; [exact Hvy | constructor].
  - constructor; [exact Hvy |].
    destruct (updateGame_mode_keys c dt g) as (Emode & Ekeys).
    apply IH.
    + rewrite Emode. exact Hhover.
    + rewrite Ekeys. exact Hkeys.
    + apply hover_step; try assumption; rewrite Hkeys; reflexivity.
Qed.

Lemma hover_steady_state_session :
  Forall (fun g' => Taxi.vy (taxi g') == 0)
         (trajectory sessionConfig (1 # 60) 120 hoverGame).
Proof.
  apply (hover_steady_state sessionConfig (1 # 60) 120 hoverGame);
    reflexivity.
Defined.

(** In regular mode with no key held the velocity step is the constant
    flight thrust up and gravity down. *)
Lemma regular_idle_vy (c : Config) (dt : Q) (g : Game) :
  Taxi.hoverMode (taxi g) = false ->
  keys g = noKeys ->
  Taxi.vy (integrate c dt g)
  = Taxi.vy (taxi g) - regularFlightThrust c * dt
    + gravity c * pixelsPerMeter c * dt.
Proof.
  intros Hmode Hkeys. unfold integrate. rewrite Hmode, Hkeys. reflexivity.
Qed.

Lemma trajectory_head (c : Config) (dt : Q) (n : nat) (g : Game) :
  exists rest, trajectory c dt n g = g :: rest.
Proof.
  destruct n; simpl; eauto.
Qed.

(** Idle descent over [n] airborne updates: the velocity grows by the net
    acceleration times [dt] on each, and [y] grows on each. *)
Lemma idle_descent (c : Config) (dt : Q) :
  0 < dt ->
  0 < gravity c * pixelsPerMeter c - regularFlightThrust c ->
  forall (n : nat) (g : Game),
  Taxi.hoverMode (taxi g) = false ->
  keys g = noKeys ->
  0 <= Taxi.vy (taxi g) ->
  airborneFor c dt n g ->
  Taxi.vy (taxi (updates c dt n g))
  == Taxi.vy (taxi g)
     + Qnat n * ((gravity c * pixelsPerMeter c - regularFlightThrust c) * dt)
  /\ increasing (map (fun g' => Taxi.y (taxi g')) (trajectory c dt n g)).
Proof.
  intros Hdt Hacc.
  assert (Hgain : 0 < (gravity c * pixelsPerMeter c - regularFlightThrust c) * dt).
  { apply Qmult_lt_0_compat; assumption. }
  induction n as [| n IH]; intros g Hmode Hkeys Hvy Hair.
  - simpl. change (Qnat 0) with 0. split; [lra | exact I].
  - destruct Hair as [[Hlo Hhi] Hrest].
    destruct (updateGame_mode_keys c dt g) as (Emode & Ekeys).
    destruct (collide_vertical g (integrate c dt g)) as (_ & _ & VM).
    destruct (VM Hlo Hhi) as (Ey & Evy & _).
    destruct (integrate_position c dt g) as (_ & Epos).
    pose proof (regular_idle_vy c dt g Hmode Hkeys) as Evel.
    assert (Hvy' : Taxi.vy (taxi (updateGame c dt g))
                   == Taxi.vy (taxi g)
                      + (gravity c * pixelsPerMeter c - regularFlightThrust c) * dt).
    { unfold updateGame. cbn [taxi set_taxi]. rewrite Evy, Evel. lra. }
    assert (Hy' : Taxi.y (taxi g) < Taxi.y (taxi (updateGame c dt g))).
    { unfold updateGame. cbn [taxi set_taxi]. rewrite Ey, Epos.
      assert (0 < Taxi.vy (integrate c dt g) * dt).
      { apply Qmult_lt_0_compat; [| exact Hdt]. rewrite Evel. lra. }
      lra. }
    destruct (IH (updateGame c dt g)) as (IHvy & IHinc).
    + rewrite Emode. exact Hmode.
    + rewrite Ekeys. exact Hkeys.
    + lra.
    + exact Hrest.
    + split.
      * simpl. rewrite IHvy, Hvy', Qnat_S. lra.
      * simpl. destruct (trajectory_head c dt n (updateGame c dt g)) as (rest & Etraj).
        rewrite Etraj in *. simpl in *. split; [exact Hy' | exact IHinc].
Qed.

(** A sufficient condition for [n] airborne updates of an idle descent:
    the taxi starts at or below the top, and even at the final speed for the
    whole time it would not reach the bottom. *)
Lemma idle_airborne (c : Config) (dt : Q) :
  0 < dt ->
  0 < gravity c * pixelsPerMeter c - regularFlightThrust c ->
  forall (n : nat) (g : Game),
  Taxi.hoverMode (taxi g) = false ->
  keys g = noKeys ->
  0 <= Taxi.vy (taxi g) ->
  0 <= Taxi.y (taxi g) ->
  Taxi.y (taxi g)
  + Qnat n * (Taxi.vy (taxi g)
              + Qnat n * ((gravity c * pixelsPerMeter c - regularFlightThrust c) * dt))
    * dt
  < bottomBoundary g ->
  airborneFor c dt n g.
Proof.
  intros Hdt Hacc.
  set (b := (gravity c * pixelsPerMeter c - regularFlightThrust c) * dt).
  assert (Hb : 0 < b) by (apply Qmult_lt_0_compat; assumption).
  induction n as [| n IH]; intros g Hmode Hkeys Hvy Hy Hroom; simpl; [exact I |].
  destruct (updateGame_mode_keys c dt g) as (Emode & Ekeys).
  destruct (collide_vertical g (integrate c dt g)) as (_ & _ & VM).
  destruct (integrate_position c dt g) as (_ & Epos).
  pose proof (regular_idle_vy c dt g Hmode Hkeys) as Evel.
  rewrite Qnat_S in Hroom.
  pose proof (Qnat_nonneg n) as HN.
  set (N := Qnat n) in *. set (v := Taxi.vy (taxi g)) in *.
  set (y := Taxi.y (taxi g)) in *.
  assert (Ev : Taxi.vy (integrate c dt g) == v + b) by (rewrite Evel; unfold b; lra).
  assert (H1 : 0 <= dt * v) by (apply Qmult_le_0_compat; lra).
  assert (H2 : 0 <= dt * b) by (apply Qmult_le_0_compat; lra).
  assert (H3 : 0 <= N * (dt * v)) by (apply Qmult_le_0_compat; lra).
  assert (H4 : 0 <= N * (dt * b)) by (apply Qmult_le_0_compat; lra).
  assert (H5 : 0 <= N * (N * (dt * b))) by (apply Qmult_le_0_compat; lra).
  assert (Ey : Taxi.y (integrate c dt g) == y + dt * v + dt * b).
  { rewrite Epos, Ev. fold y. lra. }
  assert (Hair : airborne c dt g).
  { unfold airborne. rewrite Ey. split; lra. }
  split; [exact Hair |].
  destruct Hair as [Hlo Hhi].
  destruct (VM Hlo Hhi) as (Ey' & Evy' & _).
  apply IH.
  - rewrite Emode. exact Hmode.
  - rewrite Ekeys. exact Hkeys.
  - unfold updateGame. cbn [taxi set_taxi]. rewrite Evy', Ev. lra.
  - unfold updateGame. cbn [taxi set_taxi]. rewrite Ey'. exact Hlo.
  - change (bottomBoundary (updateGame c dt g)) with (bottomBoundary g).
    unfold updateGame. cbn [taxi set_taxi]. rewrite Ey', Evy', Ey, Ev.
    fold N. lra.
Qed.

(** C6: in regular mode with no key held, the velocity step of an update
    adds [(gravity * pixelsPerMeter - regularFlightThrust) * dt] to [vy], and
    that is the [vy] the update ends with unless the taxi touches the upper or
    lower boundary.  With gravity 9.81, 100 pixels per meter and a flight
    thrust of 500, a taxi starting at rest and updated 60 times with
    [dt = 1/60], never touching a boundary, ends with [vy = 481] (exactly, in
    exact arithmetic), and [y] strictly increases on every tick. *)
Theorem regular_idle_descent (c : Config) (dt : Q) (g : Game) :
  Taxi.hoverMode (taxi g) = false ->
  keys g = noKeys ->
  Taxi.vy (integrate c dt g)
  == Taxi.vy (taxi g)
     + (gravity c * pixelsPerMeter c - regularFlightThrust c) * dt
  /\ (airborne c dt g ->
      Taxi.vy (taxi (updateGame c dt g))
      == Taxi.vy (taxi g)
         + (gravity c * pixelsPerMeter c - regularFlightThrust c) * dt)
  /\ (gravity c == 981 # 100 ->
      pixelsPerMeter c == 100 ->
      regularFlightThrust c == 500 ->
      dt == 1 # 60 ->
      Taxi.vy (taxi g) == 0 ->
      airborneFor c dt 60 g ->
      Taxi.vy (taxi (updates c dt 60 g)) == 481
      /\ increasing (map (fun g' => Taxi.y (taxi g')) (trajectory c dt 60 g))).
Proof.
  intros Hmode Hkeys.
  pose proof (regular_idle_vy c dt g Hmode Hkeys) as Evel.
  split; [| split].
  - rewrite Evel. lra.
  - intros [Hlo Hhi].
    destruct (collide_vertical g (integrate c dt g)) as (_ & _ & VM).
    destruct (VM Hlo Hhi) as (_ & Evy & _).
    unfold updateGame. cbn [taxi set_taxi]. rewrite Evy, Evel. lra.
  - intros Hg Hp Hr Hdt Hvy Hair.
    assert (Hnet : gravity c * pixelsPerMeter c - regularFlightThrust c == 481).
    { rewrite Hg, Hp, Hr. lra. }
    destruct (idle_descent c dt) with (n := 60%nat) (g := g) as (Efinal & Hinc);
      try assumption; try lra.
    split; [| exact Hinc].
    rewrite Efinal, Hvy, Hnet, Hdt. vm_compute. reflexivity.
Qed.

Lemma regular_idle_descent_session :
  Taxi.vy (taxi (updates sessionConfig (1 # 60) 60 sessionGame)) == 481
  /\ increasing (map (fun g' => Taxi.y (taxi g'))
                     (trajectory sessionConfig (1 # 60) 60 sessionGame)).
Proof.
  destruct (regular_idle_descent sessionConfig (1 # 60) sessionGame eq_refl eq_refl)
    as (_ & _ & Hscenario).
  apply Hscenario; try reflexivity.
  apply idle_airborne; try reflexivity; try discriminate.
Defined.

(** The kinematic part of the integration step reads nothing but the
    physics inputs. *)
Lemma integrate_same_inputs (c1 c2 : Config) (dt : Q) (g1 g2 : Game) :
  samePhysicsInputs c1 g1 c2 g2 ->
  Taxi.x (integrate c1 dt g1) = Taxi.x (integrate c2 dt g2)
  /\ Taxi.y (integrate c1 dt g1) = Taxi.y (integrate c2 dt g2)
  /\ Taxi.vx (integrate c1 dt g1) = Taxi.vx (integrate c2 dt g2)
  /\ Taxi.vy (integrate c1 dt g1) = Taxi.vy (integrate c2 dt g2).
Proof.
  unfold samePhysicsInputs, kinematics.
  intros (Hkin & Hmode & Hkeys & Hg & Hp & Hf & Hr & Hh & Hd & _).
  injection Hkin as Hx Hy Hvx Hvy.
  unfold integrate.
  rewrite Hmode, Hkeys, Hg, Hp, Hf, Hr, Hh, Hd.
  destruct (taxi g1) as [x1 y1 vx1 vy1 og1 hm1 fr1 lg1].
  destruct (taxi g2) as [x2 y2 vx2 vy2 og2 hm2 fr2 lg2].
  simpl in Hx, Hy, Hvx, Hvy. subst x2 y2 vx2 vy2.
  destruct (keys g2) as [kw ks ka kd].
  destruct hm2, kw, ks, ka, kd; run_integrate; repeat split.
Qed.

(** The kinematic part of the collision step reads nothing but the
    kinematic state and the boundaries. *)
Lemma collide_same_inputs (g1 g2 : Game) (t1 t2 : Taxi.t) :
  innerWidth g1 = innerWidth g2 ->
  innerHeight g1 = innerHeight g2 ->
  taxiWidth g1 = taxiWidth g2 ->
  taxiHeight g1 = taxiHeight g2 ->
  Taxi.x t1 = Taxi.x t2 -> Taxi.y t1 = Taxi.y t2 ->
  Taxi.vx t1 = Taxi.vx t2 -> Taxi.vy t1 = Taxi.vy t2 ->
  Taxi.x (collide g1 t1) = Taxi.x (collide g2 t2)
  /\ Taxi.y (collide g1 t1) = Taxi.y (collide g2 t2)
  /\ Taxi.vx (collide g1 t1) = Taxi.vx (collide g2 t2)
  /\ Taxi.vy (collide g1 t1) = Taxi.vy (collide g2 t2).
Proof.
  intros Hiw Hih Htw Hth Hx Hy Hvx Hvy.
  destruct t1 as [x1 y1 vx1 vy1 og1 hm1 fr1 lg1].
  destruct t2 as [x2 y2 vx2 vy2 og2 hm2 fr2 lg2].
  simpl in Hx, Hy, Hvx, Hvy. subst x2 y2 vx2 vy2.
  unfold collide, leftBoundary, rightBoundary, bottomBoundary, topBoundary.
  rewrite Hiw, Hih, Htw, Hth. cbn.
  destruct (Qlt_bool x1 (taxiWidth g2 / 2));
    [| destruct (Qlt_bool (innerWidth g2 - taxiWidth g2 / 2) x1)];
    cbn;
    (destruct (Qlt_bool y1 0);
     [| destruct (Qle_bool (innerHeight g2 - taxiHeight g2) y1)]);
    cbn; auto.
Qed.

Lemma updateGame_same_inputs (c1 c2 : Config) (dt : Q) (g1 g2 : Game) :
  samePhysicsInputs c1 g1 c2 g2 ->
  samePhysicsInputs c1 (updateGame c1 dt g1) c2 (updateGame c2 dt g2).
Proof.
  intros Hsame.
  destruct (integrate_same_inputs c1 c2 dt g1 g2 Hsame) as (Ix & Iy & Ivx & Ivy).
  destruct (updateGame_mode_keys c1 dt g1) as (Em1 & Ek1).
  destruct (updateGame_mode_keys c2 dt g2) as (Em2 & Ek2).
  unfold samePhysicsInputs in *.
  destruct Hsame as (_ & Hmode & Hkeys & Hg & Hp & Hf & Hr & Hh & Hd
                     & Hiw & Hih & Htw & Hth).
  destruct (collide_same_inputs g1 g2 _ _ Hiw Hih Htw Hth Ix Iy Ivx Ivy)
    as (Cx & Cy & Cvx & Cvy).
  rewrite Em1, Em2, Ek1, Ek2.
  repeat split; try assumption.
  unfold kinematics, updateGame. cbn [taxi set_taxi].
  rewrite Cx, Cy, Cvx, Cvy. reflexivity.
Qed.

(** With the whole taxi equal, so is the whole taxi after the update. *)
Lemma updateGame_same_taxi (c1 c2 : Config) (dt : Q) (g1 g2 : Game) :
  samePhysicsInputs c1 g1 c2 g2 ->
  taxi g1 = taxi g2 ->
  taxi (updateGame c1 dt g1) = taxi (updateGame c2 dt g2).
Proof.
  unfold samePhysicsInputs.
  intros (_ & _ & Hkeys & Hg & Hp & Hf & Hr & Hh & Hd & Hiw & Hih & Htw & Hth) Ht.
  unfold updateGame. cbn [taxi set_taxi].
  assert (Hint : integrate c1 dt g1 = integrate c2 dt g2).
  { unfold integrate. rewrite Ht, Hkeys, Hg, Hp, Hf, Hr, Hh, Hd. reflexivity. }
  rewrite Hint.
  unfold collide, leftBoundary, rightBoundary, bottomBoundary.
  rewrite Hiw, Hih, Htw, Hth. reflexivity.
Qed.

(** C4: the update is a function of the prior taxi state, the held keys,
    the configuration, the window and sprite dimensions and [dt], and of
    nothing else.  Two runs of the same number of updates with the same [dt]
    from states that agree on these inputs produce the same trajectory of
    [(x, y, vx, vy)], whatever else differs between them; if they start from
    the same taxi they produce the same trajectory of taxi states. *)
Theorem fixed_step_determinism (c1 c2 : Config) (dt : Q) (n : nat) (g1 g2 : Game) :
  samePhysicsInputs c1 g1 c2 g2 ->
  map kinematics (trajectory c1 dt n g1) = map kinematics (trajectory c2 dt n g2)
  /\ (taxi g1 = taxi g2 ->
      map taxi (trajectory c1 dt n g1) = map taxi (trajectory c2 dt n g2)).
Proof.
  revert g1 g2.
  induction n as [| n IH]; intros g1 g2 Hsame.
  - simpl. split.
    + destruct Hsame as (-> & _). reflexivity.
    + intros ->. reflexivity.
  - pose proof (updateGame_same_inputs c1 c2 dt g1 g2 Hsame) as Hnext.
    destruct (IH _ _ Hnext) as (IHkin & IHtaxi).
    simpl. split.
    + rewrite IHkin. destruct Hsame as (-> & _). reflexivity.
    + intros Ht. rewrite IHtaxi.
      * rewrite Ht. reflexivity.
      * apply updateGame_same_taxi; assumption.
Qed.

Lemma fixed_step_determinism_session :
  map kinematics (trajectory sessionConfig (1 # 60) 30 thrustGame)
  = map kinematics (trajectory sessionConfigOther (1 # 60) 30 thrustGameOther).
Proof.
  refine (proj1 (fixed_step_determinism sessionConfig sessionConfigOther (1 # 60) 30
                   thrustGame thrustGameOther _)).
  repeat split.
Defined.

(** ** The keyboard *)

(** Only ["h"] and ["H"] pass the test the handler makes on the lowered key
    name. *)
Lemma lowered_hover_key (k : string) :
  ((toLowerCase k =? "h") || (toLowerCase k =? "H"))%string
  = ((k =? "h") || (k =? "H"))%string.
Proof.
  destruct k as [| ch rest]; [reflexivity |].
  destruct rest as [| ch' rest'].
  - destruct ch as [[] [] [] [] [] [] [] []]; reflexivity.
  - simpl. destruct (Ascii.eqb (lowerChar ch) "h"), (Ascii.eqb (lowerChar ch) "H"),
      (Ascii.eqb ch "h"), (Ascii.eqb ch "H"); reflexivity.
Qed.





(** A property of the game state that the update and render hooks keep is
    kept by a frame callback. *)
Lemma gameLoop_game_invariant {G : Type} (h : Hooks G) (P : G -> Prop) :
  (forall u, onUpdate h = Some u -> forall dt g, P g -> P (u dt g)) ->
  (forall rd, onRender h = Some rd -> forall alpha g, P g -> P (rd alpha g)) ->
  forall (f : Frame) (r : Run G), P (game r) -> P (game (gameLoop h f r)).
Proof.
  intros Hupd Hrend f r HP.
  assert (Honce : forall r0, P (game r0) -> P (game (updateOnce h r0))).
  { intros r0 H0. unfold updateOnce.
    destruct (onUpdate h) as [u |] eqn:Eu; simpl; [| exact H0].
    apply (Hupd u eq_refl). exact H0. }
  assert (Hloop : forall fuel n r0, P (game r0) -> P (game (updateLoop h fuel n r0))).
  { induction fuel as [| fuel IH]; intros n r0 H0; simpl; [exact H0 |].
    destruct (Qle_bool _ _ && _); [| exact H0].
    apply IH. apply Honce. exact H0. }
  unfold gameLoop.
  destruct (isRunning (engine r)); simpl; [| exact HP].
  destruct (isPaused (engine r)); simpl; [exact HP |].
  match goal with
  | |- context [updateLoop h ?fuel ?n ?r0] =>
      assert (H1 : P (game (updateLoop h fuel n r0))) by (apply Hloop; exact HP);
      set (r1 := updateLoop h fuel n r0) in *
  end.
  destruct (onRender h) as [rd |] eqn:Er; simpl;
    destruct (Qlt_bool _ _); simpl; try exact H1;
    apply (Hrend rd eq_refl); exact H1.
Qed.






(** ** The engine's life cycle *)

Section LifeCycle.

Context {G : Type} (h : Hooks G).

Lemma paused_frame (f : Frame) (r : Run G) :
  isRunning (engine r) = true ->
  isPaused (engine r) = true ->
  gameLoop h f r = with_engine (set_frameId (Some (rafHandle f))) r.
Proof.
  intros Hrun Hpause. unfold gameLoop. rewrite Hrun. simpl. rewrite Hpause.
  reflexivity.
Qed.

Lemma frames_paused (fs : list Frame) : forall (r : Run G),
  isRunning (engine r) = true ->
  isPaused (engine r) = true ->
  game (frames h fs r) = game r
  /\ calls (frames h fs r) = calls r
  /\ accumulator (engine (frames h fs r)) = accumulator (engine r)
  /\ lastFrameTime (engine (frames h fs r)) = lastFrameTime (engine r)
  /\ stats (engine (frames h fs r)) = stats (engine r)
  /\ isRunning (engine (frames h fs r)) = true
  /\ isPaused (engine (frames h fs r)) = true
  /\ updateTime (engine (frames h fs r)) = updateTime (engine r)
  /\ maxFrameSkip (engine (frames h fs r)) = maxFrameSkip (engine r).
Proof.
  induction fs as [| f fs IH]; intros r Hrun Hpause.
  - simpl. repeat split; assumption.
  - change (frames h (f :: fs) r) with (frames h fs (gameLoop h f r)).
    rewrite (paused_frame f r Hrun Hpause).
    apply (IH (with_engine (set_frameId (Some (rafHandle f))) r)); assumption.
Qed.

Lemma last_cons_default {A : Type} (l : list A) : forall (a d d' : A),
  last (a :: l) d = last (a :: l) d'.
Proof.
  induction l as [| b l IH]; intros a d d'; [reflexivity |].
  change (last (a :: b :: l) d) with (last (b :: l) d).
  change (last (a :: b :: l) d') with (last (b :: l) d').
  apply IH.
Qed.

Lemma frames_paused_frameId (fs : list Frame) : forall (r : Run G),
  isRunning (engine r) = true ->
  isPaused (engine r) = true ->
  frameId (engine (frames h fs r))
  = last (map (fun f => Some (rafHandle f)) fs) (frameId (engine r)).
Proof.
  induction fs as [| f fs IH]; intros r Hrun Hpause; [reflexivity |].
  change (frames h (f :: fs) r) with (frames h fs (gameLoop h f r)).
  rewrite (paused_frame f r Hrun Hpause), IH by assumption.
  destruct fs as [| f0 fs]; [reflexivity |].
  change (map (fun f1 => Some (rafHandle f1)) (f :: f0 :: fs))
    with (Some (rafHandle f) :: map (fun f1 => Some (rafHandle f1)) (f0 :: fs)).
  change (map (fun f1 => Some (rafHandle f1)) (f0 :: fs))
    with (Some (rafHandle f0) :: map (fun f1 => Some (rafHandle f1)) fs).
  rewrite (last_cons_default _ _ _ (frameId (engine r))). reflexivity.
Qed.

(** While the engine is paused, frame callbacks keep arriving and do
    nothing: no hook is called, the game state, the accumulator, the frame
    clock and the statistics stay as they are.  Only the handle of the pending
    animation frame moves on, to that of the last callback. *)
Theorem paused_frames_inert (fs : list Frame) (r : Run G) :
  isRunning (engine r) = true ->
  isPaused (engine r) = true ->
  game (frames h fs r) = game r
  /\ calls (frames h fs r) = calls r
  /\ accumulator (engine (frames h fs r)) = accumulator (engine r)
  /\ lastFrameTime (engine (frames h fs r)) = lastFrameTime (engine r)
  /\ stats (engine (frames h fs r)) = stats (engine r)
  /\ isPaused (engine (frames h fs r)) = true
  /\ frameId (engine (frames h fs r))
     = last (map (fun f => Some (rafHandle f)) fs) (frameId (engine r)).
Proof.
  intros Hrun Hpause.
  destruct (frames_paused fs r Hrun Hpause)
    as (Hg & Hc & Ha & Hl & Hs & _ & Hp & _).
  repeat split; try assumption.
  apply frames_paused_frameId; assumption.
Qed.

Lemma stop_not_running (r : Run G) : isRunning (engine (stop h r)) = false.
Proof.
  unfold stop. destruct (isRunning (engine r)) eqn:Hrun; simpl; [| exact Hrun].
  rewrite engine_invoke. simpl.
  destruct (frameId (engine r)) as [id |]; [destruct (id =? 0)%Z |]; reflexivity.
Qed.

Lemma apply_not_running (op : Op) (r : Run G) :
  isStart op = false ->
  isRunning (engine r) = false ->
  apply h op r = r.
Proof.
  intros Hop Hrun.
  destruct op as [now resetClock first | f | | now |]; simpl;
    try discriminate Hop.
  - unfold gameLoop. rewrite Hrun. reflexivity.
  - unfold pause. rewrite Hrun. reflexivity.
  - unfold resume. rewrite Hrun. reflexivity.
  - unfold stop. rewrite Hrun. reflexivity.
Qed.

(** Once [stop()] has run, nothing but [start()] has any effect: frame
    callbacks (also one that was already scheduled), [pause()], [resume()] and
    a second [stop()] leave the engine and the game exactly as [stop()] left
    them, and call no hook. *)
Theorem stopped_engine_inert (ops : list Op) (r : Run G) :
  forallb (fun op => negb (isStart op)) ops = true ->
  applyAll h ops (stop h r) = stop h r.
Proof.
  pose proof (stop_not_running r) as Hrun.
  generalize dependent (stop h r). intros r0 Hrun.
  induction ops as [| op ops IH]; intros Hops; [reflexivity |].
  simpl in Hops. apply andb_true_iff in Hops. destruct Hops as [Hop Hrest].
  apply negb_true_iff in Hop.
  change (applyAll h (op :: ops) r0) with (applyAll h ops (apply h op r0)).
  rewrite (apply_not_running op r0 Hop Hrun). exact (IH Hrest).
Qed.

(** The time spent paused is not simulated: pause, let any number of frame
    callbacks pass, resume at clock reading [now].  The accumulator is what it
    was before the pause, and the next frame adds only the time since [now]. *)
Theorem resume_discards_paused_time (fs : list Frame) (now : Q) (f : Frame)
    (r : Run G) :
  isRunning (engine r) = true ->
  isPaused (engine r) = false ->
  let r' := resume h now (frames h fs (pause h r)) in
  isRunning (engine r') = true
  /\ isPaused (engine r') = false
  /\ accumulator (engine r') = accumulator (engine r)
  /\ lastFrameTime (engine r') = now
  /\ preLoopAccumulator f (engine r')
     = accumulator (engine r) + (currentTime f - now).
Proof.
  intros Hrun Hpause r'. subst r'.
  assert (Hp : engine (pause h r) = set_isPaused true (engine r)).
  { unfold pause. rewrite Hrun, Hpause. simpl. rewrite engine_invoke. reflexivity. }
  destruct (frames_paused fs (pause h r)) as (_ & _ & Ha & _ & _ & Hr & Hq & _).
  { rewrite Hp. exact Hrun. }
  { rewrite Hp. reflexivity. }
  rewrite Hp in Ha. simpl in Ha.
  unfold resume, preLoopAccumulator. rewrite Hr, Hq. simpl.
  rewrite !engine_invoke. simpl. rewrite Ha, Hr. repeat split.
Qed.

Lemma updateLoop_idle (fuel : nat) (n : Z) (r : Run G) :
  accumulator (engine r) < updateTime (engine r) ->
  updateLoop h fuel n r = r.
Proof.
  intros Hlt. destruct fuel as [| fuel]; [reflexivity |]. simpl.
  apply Qle_bool_false in Hlt. rewrite Hlt. reflexivity.
Qed.

Lemma updateStats_flags (d now : Q) (e : GameEngine) :
  isRunning (updateStats d now e) = isRunning e
  /\ isPaused (updateStats d now e) = isPaused e
  /\ lastFrameTime (updateStats d now e) = lastFrameTime e.
Proof.
  unfold updateStats. destruct (Qle_bool 1000 _); simpl; auto.
Qed.

(** Rewrites the fields of the engine that [updateStats] leaves alone. *)
Ltac stats_fields :=
  repeat match goal with
         | |- context [updateTime (updateStats ?d ?c ?e)] =>
             rewrite (proj1 (updateStats_fields d c e))
         | |- context [maxFrameSkip (updateStats ?d ?c ?e)] =>
             rewrite (proj1 (proj2 (updateStats_fields d c e)))
         | |- context [accumulator (updateStats ?d ?c ?e)] =>
             rewrite (proj2 (proj2 (updateStats_fields d c e)))
         | |- context [isRunning (updateStats ?d ?c ?e)] =>
             rewrite (proj1 (updateStats_flags d c e))
         | |- context [isPaused (updateStats ?d ?c ?e)] =>
             rewrite (proj1 (proj2 (updateStats_flags d c e)))
         | |- context [lastFrameTime (updateStats ?d ?c ?e)] =>
             rewrite (proj2 (proj2 (updateStats_flags d c e)))
         end.

(** A processed frame that finds an empty accumulator and brings no time:
    no update, one render with factor 0. *)
Lemma gameLoop_first_frame (rd : Q -> G -> G) (f : Frame) (r : Run G) :
  onRender h = Some rd ->
  isRunning (engine r) = true ->
  isPaused (engine r) = false ->
  0 < updateTime (engine r) ->
  (0 <= maxFrameSkip (engine r))%Z ->
  accumulator (engine r) == 0 ->
  currentTime f = lastFrameTime (engine r) ->
  exists alpha : Q,
    alpha == 0
    /\ calls (gameLoop h f r) = calls r ++ [CallRender alpha]
    /\ game (gameLoop h f r) = rd alpha (game r)
    /\ isRunning (engine (gameLoop h f r)) = true
    /\ isPaused (engine (gameLoop h f r)) = false
    /\ accumulator (engine (gameLoop h f r)) == 0
    /\ lastFrameTime (engine (gameLoop h f r)) = currentTime f.
Proof.
  intros Hrd Hrun Hpause Hut Hmfs Hacc Hf.
  assert (Hceil : 0 <= updateTime (engine r) * inject_Z (maxFrameSkip (engine r))).
  { apply Qmult_le_0_compat; [lra |].
    change 0 with (inject_Z 0). rewrite <- Zle_Qle. exact Hmfs. }
  unfold gameLoop. rewrite Hrun. simpl. rewrite Hpause, Hrd.
  rewrite updateLoop_idle.
  2:{ simpl. stats_fields. simpl. rewrite Hf. lra. }
  simpl. stats_fields. simpl.
  destruct (Qlt_bool _ _) eqn:Eclamp;
    [ apply Qlt_bool_iff in Eclamp; rewrite Hf in Eclamp; exfalso; lra | ].
  simpl. stats_fields. simpl. eexists.
  split; [| repeat split; try reflexivity; try assumption; rewrite Hf; lra].
  rewrite Hf, Hacc. unfold Qdiv. lra.
Qed.

(** [start()] on an engine that is not running, with a positive update
    interval: the init hook is called, then the first frame is rendered with
    interpolation factor 0; no update is made.  The engine is running, not
    paused, its accumulator empty and its frame clock at [now]. *)
Theorem start_renders_once (i : G -> G) (rd : Q -> G -> G)
    (now resetClock : Q) (first : Frame) (r : Run G) :
  onInit h = Some i ->
  onRender h = Some rd ->
  isRunning (engine r) = false ->
  0 < updateTime (engine r) ->
  (0 <= maxFrameSkip (engine r))%Z ->
  let r' := start h now resetClock first r in
  exists alpha : Q,
    alpha == 0
    /\ calls r' = calls r ++ [CallInit; CallRender alpha]
    /\ game r' = rd alpha (i (game r))
    /\ isRunning (engine r') = true
    /\ isPaused (engine r') = false
    /\ accumulator (engine r') == 0
    /\ lastFrameTime (engine r') = now.
Proof.
  intros Hi Hrd Hrun Hut Hmfs r'. subst r'.
  unfold start. rewrite Hrun, Hi. cbv zeta.
  match goal with
  | |- context [gameLoop h ?f0 ?r0] =>
      destruct (gameLoop_first_frame rd f0 r0 Hrd)
        as (alpha & Halpha & Hcalls & Hgame & Hr & Hp & Ha & Hl);
      try reflexivity; try assumption
  end.
  exists alpha. rewrite Hcalls, Hgame, Hr, Hp, Ha, Hl.
  cbn [invoke with_engine engine game calls]. rewrite <- app_assoc.
  repeat split; try reflexivity. exact Halpha.
Qed.

End LifeCycle.

Lemma paused_frames_inert_session :
  game (frames sessionHooks [mkFrame 5000 3 5000; mkFrame 5016 4 5016]
          (pause sessionHooks startedRun))
  = game (pause sessionHooks startedRun).
Proof.
  destruct (paused_frames_inert sessionHooks
              [mkFrame 5000 3 5000; mkFrame 5016 4 5016]
              (pause sessionHooks startedRun)) as [Hgame _];
    [reflexivity | reflexivity | exact Hgame].
Defined.

Lemma stopped_engine_inert_session :
  applyAll sessionHooks
    [OpFrame (mkFrame 1050 2 1050); OpPause; OpResume 6000; OpStop]
    (stop sessionHooks startedRun)
  = stop sessionHooks startedRun.
Proof.
  apply (stopped_engine_inert sessionHooks). reflexivity.
Defined.

Lemma resume_discards_paused_time_session :
  preLoopAccumulator (mkFrame 6010 4 6010)
    (engine (resume sessionHooks 6000
               (frames sessionHooks [mkFrame 5000 3 5000]
                  (pause sessionHooks startedRun))))
  = accumulator (engine startedRun) + (6010 - 6000).
Proof.
  destruct (resume_discards_paused_time sessionHooks [mkFrame 5000 3 5000]
              6000 (mkFrame 6010 4 6010) startedRun)
    as (_ & _ & _ & _ & Hacc); [reflexivity | reflexivity | exact Hacc].
Defined.

Lemma start_renders_once_session :
  exists alpha : Q,
    alpha == 0 /\ calls startedRun = [CallInit; CallRender alpha].
Proof.
  destruct (start_renders_once sessionHooks (initTaxi sessionConfig) renderGame
              1000 1000 (mkFrame 1000 1 1000) sessionRun)
    as (alpha & Halpha & Hcalls & _);
    [reflexivity | reflexivity | reflexivity | reflexivity | discriminate |].
  exists alpha. split; [exact Halpha | exact Hcalls].
Defined.

(** ** The statistics *)

Lemma Math_round_nonneg (a : Q) : 0 <= a -> (0 <= Math_round a)%Z.
Proof.
  intros Ha. unfold Math_round.
  change 0%Z with (Qfloor 0). apply Qfloor_resp_le. lra.
Qed.

Lemma Math_round_le (a : Q) (n : Z) : a <= inject_Z n -> (Math_round a <= n)%Z.
Proof.
  intros Ha. unfold Math_round.
  pose proof (Qfloor_le (a + (1 # 2))) as Hfloor.
  assert (Hlt : inject_Z (Qfloor (a + (1 # 2))) < inject_Z (n + 1)).
  { rewrite inject_Z_plus. change (inject_Z 1) with 1. lra. }
  rewrite <- Zlt_Qlt in Hlt. lia.
Qed.

Lemma Math_round_whole (a : Q) (n : Z) : a == inject_Z n -> Math_round a = n.
Proof.
  intros Ha. apply Z.le_antisymm.
  - apply Math_round_le. lra.
  - unfold Math_round. rewrite <- (Qfloor_Z n) at 1.
    apply Qfloor_resp_le. lra.
Qed.

(** The rate [updateStats] publishes for a counter [n] after [elapsed]
    milliseconds. *)
Lemma rate_bounds (n : Z) (elapsed : Q) :
  (0 <= n)%Z ->
  1000 <= elapsed ->
  (0 <= Math_round (inject_Z n * 1000 / elapsed) <= n)%Z
  /\ (elapsed == 1000 -> Math_round (inject_Z n * 1000 / elapsed) = n).
Proof.
  intros Hn Hel.
  assert (HnQ : 0 <= inject_Z n).
  { change 0 with (inject_Z 0). rewrite <- Zle_Qle. exact Hn. }
  assert (Hprod : 0 <= inject_Z n * (elapsed - 1000)).
  { apply Qmult_le_0_compat; lra. }
  split; [split |].
  - apply Math_round_nonneg. apply Qle_shift_div_l; lra.
  - apply Math_round_le. apply Qle_shift_div_r; lra.
  - intros Heq. apply Math_round_whole. rewrite Heq. field.
Qed.

(** What a statistics flush publishes.  Less than a second after the last
    flush [updateStats] changes nothing.  From a second on it publishes the
    frames and updates counted, scaled to one second and rounded; the rates
    are never negative and never exceed the counts, and equal them when
    exactly one second has passed.  The counters restart from zero. *)
Theorem updateStats_flush (d now : Q) (e : GameEngine) :
  (0 <= frameCount (stats e))%Z ->
  (0 <= updateCount (stats e))%Z ->
  (now - lastStatsTime (stats e) < 1000 -> updateStats d now e = e)
  /\ (1000 <= now - lastStatsTime (stats e) ->
      let e' := updateStats d now e in
      frameCount (stats e') = 0%Z
      /\ updateCount (stats e') = 0%Z
      /\ lastStatsTime (stats e') = now
      /\ (0 <= fps (stats e') <= frameCount (stats e))%Z
      /\ (0 <= ups (stats e') <= updateCount (stats e))%Z
      /\ (now - lastStatsTime (stats e) == 1000 ->
          fps (stats e') = frameCount (stats e)
          /\ ups (stats e') = updateCount (stats e)))
  /\ accumulator (updateStats d now e) = accumulator e
  /\ isRunning (updateStats d now e) = isRunning e
  /\ isPaused (updateStats d now e) = isPaused e.
Proof.
  intros Hfc Huc. unfold updateStats.
  split; [| split].
  - intros Hlt. apply Qle_bool_false in Hlt. rewrite Hlt. reflexivity.
  - intros Hge.
    destruct (rate_bounds _ _ Hfc Hge) as (Hf1 & Hf2).
    destruct (rate_bounds _ _ Huc Hge) as (Hu1 & Hu2).
    apply Qle_bool_iff in Hge. rewrite Hge. simpl.
    repeat split; try apply Hf1; try apply Hu1; auto.
  - destruct (Qle_bool 1000 _); simpl; auto.
Qed.

Lemma updateStats_flush_session :
  (0 <= fps (stats (updateStats 0 2500
                      (set_stats (mkStats 0 0 150 140 1000)
                                 (constructor initGameOptions))))
   <= 150)%Z.
Proof.
  destruct (updateStats_flush 0 2500
              (set_stats (mkStats 0 0 150 140 1000) (constructor initGameOptions)))
    as (_ & Hflush & _); [discriminate | discriminate |].
  destruct Hflush as (_ & _ & _ & Hfps & _); [discriminate |].
  exact Hfps.
Defined.

Section StatsInvariant.

Context {G : Type} (h : Hooks G).

Lemma updateStats_consistent (d now : Q) (e : GameEngine) :
  statsConsistent e -> statsConsistent (updateStats d now e).
Proof.
  unfold statsConsistent. intros (Hfc & Huc & Hle & Hfps & Hups).
  unfold updateStats.
  destruct (Qle_bool 1000 _) eqn:Hge; simpl; [| auto].
  apply Qle_bool_iff in Hge.
  destruct (rate_bounds _ _ Hfc Hge) as (Hf1 & _).
  destruct (rate_bounds _ _ Huc Hge) as (Hu1 & _).
  repeat split; lia.
Qed.

Lemma updateOnce_stats (r : Run G) :
  frameCount (stats (engine (updateOnce h r))) = frameCount (stats (engine r))
  /\ fps (stats (engine (updateOnce h r))) = fps (stats (engine r))
  /\ ups (stats (engine (updateOnce h r))) = ups (stats (engine r)).
Proof.
  unfold updateOnce. simpl. rewrite !engine_invoke. auto.
Qed.

(** The loop counts at most [fuel] updates and touches no other statistic. *)
Lemma updateLoop_stats (fuel : nat) : forall (n : Z) (r : Run G),
  frameCount (stats (engine (updateLoop h fuel n r))) = frameCount (stats (engine r))
  /\ fps (stats (engine (updateLoop h fuel n r))) = fps (stats (engine r))
  /\ ups (stats (engine (updateLoop h fuel n r))) = ups (stats (engine r))
  /\ (updateCount (stats (engine r))
      <= updateCount (stats (engine (updateLoop h fuel n r)))
      <= updateCount (stats (engine r)) + Z.of_nat fuel)%Z.
Proof.
  induction fuel as [| fuel IH]; intros n r.
  - simpl. repeat split; lia.
  - cbn [updateLoop].
    destruct (Qle_bool _ _ && _); [| repeat split; lia].
    destruct (IH (n + 1)%Z (updateOnce h r)) as (-> & -> & -> & Hcount).
    destruct (updateOnce_stats r) as (-> & -> & ->).
    rewrite (updateOnce_counter h r) in Hcount.
    repeat split; lia.
Qed.

Lemma gameLoop_consistent (f : Frame) (r : Run G) :
  (0 <= maxFrameSkip (engine r))%Z ->
  statsConsistent (engine r) ->
  statsConsistent (engine (gameLoop h f r)).
Proof.
  intros Hmfs Hs. unfold gameLoop.
  destruct (isRunning (engine r)); simpl; [| exact Hs].
  destruct (isPaused (engine r)); simpl; [exact Hs |].
  match goal with
  | |- context [updateLoop h ?fuel ?n ?r0] =>
      destruct (updateLoop_stats fuel n r0) as (Efc & Efps & Eups & Ecount);
      destruct (updateLoop_engine h fuel n r0) as (_ & Emfs & _);
      set (r1 := updateLoop h fuel n r0) in *
  end.
  pose proof (updateStats_consistent
                (currentTime f - lastFrameTime (engine r)) (statsClock f)
                (set_lastFrameTime (currentTime f)
                   (set_frameId (Some (rafHandle f)) (engine r))) Hs) as Hs0.
  simpl in Efc, Efps, Eups, Ecount, Emfs.
  destruct (updateStats_fields
              (currentTime f - lastFrameTime (engine r)) (statsClock f)
              (set_lastFrameTime (currentTime f)
                 (set_frameId (Some (rafHandle f)) (engine r))))
    as (_ & Emfs0 & _).
  simpl in Emfs0. rewrite Emfs0 in Emfs, Ecount.
  rewrite Z2Nat.id in Ecount by exact Hmfs.
  unfold statsConsistent in Hs0 |- *.
  rewrite Emfs0 in Hs0. destruct Hs0 as (Hfc & Huc & Hle & Hfps & Hups).
  destruct (Qlt_bool _ _); simpl; rewrite !engine_invoke; simpl;
    rewrite Efc, Efps, Eups, Emfs; repeat split; nia.
Qed.

Lemma apply_consistent (op : Op) (r : Run G) :
  (0 <= maxFrameSkip (engine r))%Z ->
  statsConsistent (engine r) ->
  statsConsistent (engine (apply h op r)).
Proof.
  intros Hmfs Hs.
  destruct op as [now resetClock first | f | | now |]; simpl.
  - unfold start. destruct (isRunning (engine r)); [exact Hs |].
    apply gameLoop_consistent; rewrite engine_invoke; simpl; [exact Hmfs |].
    unfold statsConsistent. simpl. repeat split; lia.
  - apply gameLoop_consistent; assumption.
  - unfold pause. destruct (negb _ || _); [exact Hs |].
    rewrite engine_invoke. exact Hs.
  - unfold resume. destruct (negb _ || _); [exact Hs |].
    rewrite engine_invoke. exact Hs.
  - unfold stop. destruct (negb _); [exact Hs |].
    rewrite engine_invoke. simpl.
    destruct (frameId (engine r)) as [id |]; [destruct (id =? 0)%Z |]; exact Hs.
Qed.

(** Throughout the life of an engine built with a non-negative
    [maxFrameSkip], whatever is done to it and whatever the clocks read: the
    frame and update counters are never negative, the updates counted never
    exceed [maxFrameSkip] times the frames counted, and the published [fps]
    and [ups] are never negative. *)
Theorem stats_counters_consistent (c : Options) (g0 : G) (ops : list Op) :
  (0 <= maxFrameSkip (constructor c))%Z ->
  Forall (fun r => statsConsistent (engine r))
         (visited h ops (mkRun (constructor c) g0 [])).
Proof.
  intros Hmfs.
  assert (Hinit : statsConsistent (engine (mkRun (constructor c) g0 []))).
  { unfold statsConsistent. simpl. repeat split; lia. }
  assert (Hmfs0 : (0 <= maxFrameSkip (engine (mkRun (constructor c) g0 [])))%Z)
    by exact Hmfs.
  generalize dependent (mkRun (constructor c) g0 []). clear Hmfs.
  induction ops as [| op ops IH]; intros r Hinit Hmfs; simpl.
  - constructor.
  - constructor.
    + apply apply_consistent; assumption.
    + apply IH.
      * apply apply_consistent; assumption.
      * rewrite (proj2 (apply_settings h op r)). exact Hmfs.
Qed.

End StatsInvariant.

Lemma stats_counters_consistent_session :
  Forall (fun r => statsConsistent (engine r))
         (visited sessionHooks sessionOps sessionRun).
Proof.
  apply (stats_counters_consistent sessionHooks initGameOptions sessionGame sessionOps).
  discriminate.
Defined.

(** ** The keyboard, continued *)

Lemma lowered_pause_key (k : string) :
  (toLowerCase k =? "p")%string = true -> k = "p"%string \/ k = "P"%string.
Proof.
  destruct k as [| ch rest]; [discriminate |].
  destruct rest as [| ch' rest'].
  - destruct ch as [[] [] [] [] [] [] [] []]; simpl; intros H;
      try discriminate H; auto.
  - simpl. destruct (Ascii.eqb (lowerChar ch) "p"); discriminate.
Qed.

Lemma set_keys_same (g : Game) : set_keys (keys g) g = g.
Proof. destruct g; reflexivity. Qed.

(** The pause key is no other key of the game. *)
Lemma pause_key_only_pauses (event : KeyboardEvent) :
  isPauseKey event = true ->
  (key event =? " ")%string = false
  /\ isHoverKey event = false
  /\ (forall b k, thrusterKeys event b k = k).
Proof.
  unfold isPauseKey. intros Hp.
  destruct event as [k]. simpl in Hp.
  destruct (lowered_pause_key k Hp) as [-> | ->];
    repeat split; intros b [kw ks ka kd]; reflexivity.
Qed.

Lemma thrusterKeys_release_after_press (event : KeyboardEvent) (k : Keys.t) :
  thrusterKeys event false (thrusterKeys event true k) = thrusterKeys event false k.
Proof.
  destruct k as [kw ks ka kd]. unfold thrusterKeys.
  destruct (isWASD (toLowerCase (key event))).
  - unfold setKey.
    destruct (toLowerCase (key event) =? "w")%string; [reflexivity |].
    destruct (toLowerCase (key event) =? "s")%string; [reflexivity |].
    destruct (toLowerCase (key event) =? "a")%string; [reflexivity |].
    destruct (toLowerCase (key event) =? "d")%string; reflexivity.
  - destruct (key event =? "ArrowUp")%string; [reflexivity |].
    destruct (key event =? "ArrowDown")%string; [reflexivity |].
    destruct (key event =? "ArrowLeft")%string; [reflexivity |].
    destruct (key event =? "ArrowRight")%string; reflexivity.
Qed.

(** What a key-down event does to the game state and to the pause flag,
    with the hooks [initGame] installs. *)
Lemma keydown_effect (c : Config) (now : Q) (event : KeyboardEvent) (r : Run Game) :
  gameScreenActive (game r) = true ->
  let r' := keydown (gameHooks c) now event r in
  keys (game r')
  = (if running (engine r) then thrusterKeys event true (keys (game r))
     else keys (game r))
  /\ Taxi.landingGear (taxi (game r'))
     = (if running (engine r) && (key event =? " ")%string
        then negb (Taxi.landingGear (taxi (game r)))
        else Taxi.landingGear (taxi (game r)))
  /\ gameScreenActive (game r') = true
  /\ calls r' = calls r
  /\ (isPauseKey event = false -> engine r' = engine r)
  /\ (isPauseKey event = true -> game r' = game r).
Proof.
  intros Hactive r'. subst r'. unfold keydown. rewrite Hactive.
  rewrite lowered_hover_key. cbv zeta.
  destruct (toLowerCase (key event) =? "p")%string eqn:Hp.
  - destruct (pause_key_only_pauses event Hp) as (Hspace & Hhover & Hthrust).
    unfold isHoverKey in Hhover. rewrite Hhover, Hspace.
    assert (Hpr : forall r0 : Run Game,
               game (if isPaused (engine r0) then resume (gameHooks c) now r0
                     else if isRunning (engine r0) then pause (gameHooks c) r0
                          else r0) = game r0
               /\ calls (if isPaused (engine r0) then resume (gameHooks c) now r0
                         else if isRunning (engine r0) then pause (gameHooks c) r0
                              else r0) = calls r0).
    { intros r0. unfold pause, resume.
      destruct (isPaused (engine r0)), (isRunning (engine r0)); simpl; auto. }
    destruct (Hpr r) as (Eg & Ec).
    set (r1 := if isPaused (engine r) then _ else _) in *.
    rewrite andb_false_r.
    destruct (running (engine r1)), (running (engine r));
      cbn [with_game game calls]; rewrite ?Hthrust, ?set_keys_same, ?Eg, ?Ec;
      repeat split; try discriminate; auto;
      unfold isPauseKey; rewrite Hp; discriminate.
  - unfold isPauseKey. rewrite Hp.
    destruct (running (engine r)) eqn:Er;
      destruct ((key event =? "h") || (key event =? "H"))%string;
      destruct (key event =? " ")%string;
      repeat (cbn [with_game engine game calls andb keys taxi set_taxi set_keys
                   Taxi.landingGear Taxi.set_landingGear Taxi.set_hoverMode
                   gameScreenActive];
              rewrite ?Er);
      repeat split; try discriminate; auto.
Qed.

(** The pause key.  With the game screen active and the engine running, a
    key-down of [p] or [P] flips the pause flag and does nothing else: the
    game state, the hook calls made, the accumulator and the statistics are
    untouched.  Resuming puts the frame clock at [now]; pausing leaves it. *)
Theorem pause_key_toggles (c : Config) (now : Q) (event : KeyboardEvent)
    (r : Run Game) :
  gameScreenActive (game r) = true ->
  isRunning (engine r) = true ->
  isPauseKey event = true ->
  let r' := keydown (gameHooks c) now event r in
  isPaused (engine r') = negb (isPaused (engine r))
  /\ isRunning (engine r') = true
  /\ game r' = game r
  /\ calls r' = calls r
  /\ accumulator (engine r') = accumulator (engine r)
  /\ stats (engine r') = stats (engine r)
  /\ lastFrameTime (engine r')
     = (if isPaused (engine r) then now else lastFrameTime (engine r)).
Proof.
  intros Hactive Hrun Hp r'.
  destruct (keydown_effect c now event r Hactive) as (_ & _ & _ & Hcalls & _ & Hgame).
  fold r' in Hcalls, Hgame.
  assert (He : engine r'
               = if isPaused (engine r)
                 then set_lastUpdateTime now
                        (set_lastFrameTime now (set_isPaused false (engine r)))
                 else set_isPaused true (engine r)).
  { subst r'. unfold keydown. rewrite Hactive. unfold isPauseKey in Hp.
    rewrite Hp. cbv zeta.
    set (r1 := if isPaused (engine r) then _ else _).
    assert (E1 : engine r1
                 = if isPaused (engine r)
                   then set_lastUpdateTime now
                          (set_lastFrameTime now (set_isPaused false (engine r)))
                   else set_isPaused true (engine r)).
    { subst r1. unfold resume, pause. rewrite Hrun.
      destruct (isPaused (engine r)); reflexivity. }
    rewrite <- E1. clearbody r1.
    destruct ((toLowerCase (key event) =? "h") || (toLowerCase (key event) =? "H"))%string;
      destruct (key event =? " ")%string;
      destruct (running (engine r1)) eqn:Er;
      repeat (cbn [with_game engine]; rewrite ?Er); reflexivity. }
  rewrite He, (Hgame Hp), Hcalls.
  destruct (isPaused (engine r)); simpl; repeat split; assumption.
Qed.

Lemma pause_key_toggles_session :
  isPaused (engine (keydown sessionHooks 1500 (mkKeyboardEvent "P") startedRun))
  = true
  /\ game (keydown sessionHooks 1500 (mkKeyboardEvent "P") startedRun)
     = game startedRun.
Proof.
  destruct (pause_key_toggles sessionConfig 1500 (mkKeyboardEvent "P") startedRun)
    as (Hflag & _ & Hgame & _); try reflexivity.
  split; [exact Hflag | exact Hgame].
Defined.

Lemma step_paused (c : Config) (i : Input) (r : Run Game) :
  noPauseKey [i] = true ->
  isPaused (engine r) = true ->
  let r' := step (gameHooks c) i r in
  isPaused (engine r') = true
  /\ taxi (game r') = taxi (game r)
  /\ calls r' = calls r
  /\ accumulator (engine r') = accumulator (engine r)
  /\ (forall now event, i = KeyDown now event -> r' = r).
Proof.
  intros Hkey Hpause r'. subst r'.
  assert (Hnot : running (engine r) = false).
  { unfold running. rewrite Hpause. apply andb_false_r. }
  destruct i as [now event | event | f]; simpl.
  - simpl in Hkey. rewrite andb_true_r in Hkey. apply negb_true_iff in Hkey.
    unfold isPauseKey in Hkey.
    assert (Hsame : keydown (gameHooks c) now event r = r).
    { unfold keydown. rewrite Hkey. cbv zeta.
      destruct (gameScreenActive (game r)); [| reflexivity].
      destruct ((toLowerCase (key event) =? "h") || (toLowerCase (key event) =? "H"))%string;
        destruct (key event =? " ")%string;
        repeat (rewrite ?Hnot; cbv iota); reflexivity. }
    rewrite Hsame. repeat split; auto.
  - unfold keyup. destruct (gameScreenActive (game r)); simpl;
      repeat split; auto; discriminate.
  - destruct (isRunning (engine r)) eqn:Hrun.
    + rewrite (paused_frame (gameHooks c) f r Hrun Hpause). simpl.
      repeat split; auto; discriminate.
    + unfold gameLoop. rewrite Hrun. simpl. repeat split; auto; discriminate.
Qed.

(** A paused game is frozen.  Whatever arrives while the engine is paused,
    short of a key-down of the pause key (frame callbacks, key releases, any
    other key press), the taxi does not change, no hook is called, and the
    engine stays paused with its accumulator as it was; key presses are
    dropped altogether. *)
Theorem paused_game_frozen (c : Config) (inputs : list Input) (r : Run Game) :
  noPauseKey inputs = true ->
  isPaused (engine r) = true ->
  let r' := run (gameHooks c) inputs r in
  isPaused (engine r') = true
  /\ taxi (game r') = taxi (game r)
  /\ calls r' = calls r
  /\ accumulator (engine r') = accumulator (engine r).
Proof.
  revert r. induction inputs as [| i rest IH]; intros r Hkeys Hpause.
  - simpl. auto.
  - change (run (gameHooks c) (i :: rest) r)
      with (run (gameHooks c) rest (step (gameHooks c) i r)).
    unfold noPauseKey in Hkeys. simpl in Hkeys.
    apply andb_true_iff in Hkeys. destruct Hkeys as [Hi Hrest].
    destruct (step_paused c i r) as (Hp & Ht & Hc & Ha & _).
    { unfold noPauseKey. simpl. rewrite Hi. reflexivity. }
    { exact Hpause. }
    destruct (IH (step (gameHooks c) i r) Hrest Hp) as (IHp & IHt & IHc & IHa).
    cbv zeta. rewrite IHt, IHc, IHa, Ht, Hc, Ha. auto.
Qed.

Lemma paused_game_frozen_session :
  taxi (game (run sessionHooks
                  [KeyDown 2000 (mkKeyboardEvent "w");
                   AnimationFrame (mkFrame 2016 9 2016);
                   KeyDown 2020 (mkKeyboardEvent "h");
                   AnimationFrame (mkFrame 2033 10 2033);
                   KeyUp (mkKeyboardEvent "w")]
                  (pause sessionHooks startedRun)))
  = taxi (game (pause sessionHooks startedRun)).
Proof.
  apply (paused_game_frozen sessionConfig); reflexivity.
Defined.

(** The thruster keys.  A key press counts only while the game screen is
    active and the engine is running and not paused; a key release counts
    whenever the game screen is active, paused or not.  Releasing after
    pressing always leaves the thruster released, and a press and release of
    a thruster that was not held restores the held keys exactly.  The arrow
    keys and the upper-case letters act as [w], [s], [a], [d]. *)
Theorem thruster_press_release (c : Config) (now : Q) (event : KeyboardEvent)
    (r : Run Game) :
  gameScreenActive (game r) = true ->
  keys (game (keydown (gameHooks c) now event r))
  = (if running (engine r) then thrusterKeys event true (keys (game r))
     else keys (game r))
  /\ keys (game (keyup event r)) = thrusterKeys event false (keys (game r))
  /\ keys (game (keyup event (keydown (gameHooks c) now event r)))
     = thrusterKeys event false (keys (game r))
  /\ (thrusterKeys event false (keys (game r)) = keys (game r) ->
      keys (game (keyup event (keydown (gameHooks c) now event r)))
      = keys (game r))
  /\ (forall b k,
         thrusterKeys (mkKeyboardEvent "ArrowUp") b k
         = thrusterKeys (mkKeyboardEvent "w") b k
         /\ thrusterKeys (mkKeyboardEvent "ArrowDown") b k
            = thrusterKeys (mkKeyboardEvent "s") b k
         /\ thrusterKeys (mkKeyboardEvent "ArrowLeft") b k
            = thrusterKeys (mkKeyboardEvent "a") b k
         /\ thrusterKeys (mkKeyboardEvent "ArrowRight") b k
            = thrusterKeys (mkKeyboardEvent "d") b k
         /\ thrusterKeys (mkKeyboardEvent "W") b k
            = thrusterKeys (mkKeyboardEvent "w") b k
         /\ thrusterKeys (mkKeyboardEvent "S") b k
            = thrusterKeys (mkKeyboardEvent "s") b k
         /\ thrusterKeys (mkKeyboardEvent "A") b k
            = thrusterKeys (mkKeyboardEvent "a") b k
         /\ thrusterKeys (mkKeyboardEvent "D") b k
            = thrusterKeys (mkKeyboardEvent "d") b k).
Proof.
  intros Hactive.
  destruct (keydown_effect c now event r Hactive) as (Hkeys & _ & Hact' & _).
  assert (Hup : forall r0, gameScreenActive (game r0) = true ->
                keys (game (keyup event r0)) = thrusterKeys event false (keys (game r0))).
  { intros r0 H0. unfold keyup. rewrite H0. reflexivity. }
  assert (Hboth : keys (game (keyup event (keydown (gameHooks c) now event r)))
                  = thrusterKeys event false (keys (game r))).
  { rewrite (Hup _ Hact'), Hkeys.
    destruct (running (engine r));
      [apply thrusterKeys_release_after_press | reflexivity]. }
  split; [exact Hkeys |]. split; [exact (Hup r Hactive) |].
  split; [exact Hboth |]. split.
  - intros Hfree. rewrite Hboth. exact Hfree.
  - intros b k. repeat split.
Qed.

Lemma thruster_press_release_session :
  keys (game (keyup (mkKeyboardEvent "ArrowUp")
                (keydown sessionHooks 1500 (mkKeyboardEvent "ArrowUp") startedRun)))
  = keys (game startedRun).
Proof.
  destruct (thruster_press_release sessionConfig 1500 (mkKeyboardEvent "ArrowUp")
              startedRun eq_refl) as (_ & _ & _ & Hround & _).
  apply Hround. reflexivity.
Defined.

(** ** The landing gear *)

Lemma step_landingGear (c : Config) (i : Input) (r : Run Game) :
  Taxi.landingGear (taxi (game (step (gameHooks c) i r)))
  = Nat.iter (gearKeyDown i r) negb (Taxi.landingGear (taxi (game r))).
Proof.
  destruct i as [now event | event | f]; simpl.
  - destruct (gameScreenActive (game r)) eqn:Hactive.
    + destruct (keydown_effect c now event r Hactive) as (_ & -> & _).
      cbn [andb].
      destruct (running (engine r) && (key event =? " ")%string); reflexivity.
    + unfold keydown. rewrite Hactive. reflexivity.
  - unfold keyup. destruct (gameScreenActive (game r)); reflexivity.
  - apply (gameLoop_game_invariant (gameHooks c)
             (fun g => Taxi.landingGear (taxi g) = Taxi.landingGear (taxi (game r)))).
    + intros u Hu dt g Hg. simpl in Hu. injection Hu as <-.
      unfold updateGame. cbn [taxi set_taxi].
      destruct (collide_flags g (integrate c dt g)) as (_ & -> & _).
      destruct (integrate_flags c dt g) as (_ & -> & _). exact Hg.
    + intros rd Hrd alpha g Hg. simpl in Hrd. injection Hrd as <-.
      unfold renderGame. destruct (taxiSprite g); exact Hg.
    + reflexivity.
Qed.

(** The landing gear is toggled like the hover mode: over any sequence of
    key-down events, key-up events and frame callbacks it is flipped exactly
    once for each key-down event of the space bar that arrives while the game
    screen is active and the engine is running and not paused, and by nothing
    else; in particular no update changes it, and holding or releasing the
    space bar does not. *)
Theorem landing_gear_edge_triggered (c : Config) (inputs : list Input)
    (r : Run Game) :
  Taxi.landingGear (taxi (game (run (gameHooks c) inputs r)))
  = Nat.iter (gearKeyDowns (gameHooks c) inputs r) negb
             (Taxi.landingGear (taxi (game r))).
Proof.
  revert r. induction inputs as [| i rest IH]; intros r.
  - reflexivity.
  - change (run (gameHooks c) (i :: rest) r)
      with (run (gameHooks c) rest (step (gameHooks c) i r)).
    rewrite IH, step_landingGear. cbn [gearKeyDowns].
    rewrite Nat.add_comm, Nat.iter_add. reflexivity.
Qed.

(** ** The physics update, continued *)






(** Resting contact.  In regular mode with no key held, when gravity is at
    least as strong as the flight thrust and the window is at least as high
    as the sprite, a taxi on the ground line (or below it) that is not moving
    up is put on the ground by the next update and stays there: after every
    later update [y] is the lower boundary, [vy] is zero and [onGround] is
    true. *)
Theorem grounded_taxi_stays (c : Config) (dt : Q) (n : nat) (g : Game) :
  Taxi.hoverMode (taxi g) = false ->
  keys g = noKeys ->
  0 <= dt ->
  regularFlightThrust c <= gravity c * pixelsPerMeter c ->
  0 <= bottomBoundary g ->
  bottomBoundary g <= Taxi.y (taxi g) ->
  0 <= Taxi.vy (taxi g) ->
  Forall (fun g' => Taxi.y (taxi g') = bottomBoundary g
                    /\ Taxi.vy (taxi g') = 0
                    /\ Taxi.onGround (taxi g') = true)
         (trajectory c dt n (updateGame c dt g)).
Proof.
  intros Hmode Hkeys Hdt Hnet Hbottom.
  assert (Hstep : forall g0,
             Taxi.hoverMode (taxi g0) = false -> keys g0 = noKeys ->
             bottomBoundary g0 = bottomBoundary g ->
             bottomBoundary g <= Taxi.y (taxi g0) -> 0 <= Taxi.vy (taxi g0) ->
             Taxi.y (taxi (updateGame c dt g0)) = bottomBoundary g
             /\ Taxi.vy (taxi (updateGame c dt g0)) = 0
             /\ Taxi.onGround (taxi (updateGame c dt g0)) = true).
  { intros g0 Hm Hk Hb Hy Hvy.
    pose proof (regular_idle_vy c dt g0 Hm Hk) as Evel.
    destruct (integrate_position c dt g0) as (_ & Epos).
    destruct (collide_vertical g0 (integrate c dt g0)) as (_ & VB & _).
    assert (Hgain : 0 <= (gravity c * pixelsPerMeter c - regularFlightThrust c) * dt).
    { apply Qmult_le_0_compat; lra. }
    assert (Hv1 : 0 <= Taxi.vy (integrate c dt g0)) by (rewrite Evel; lra).
    assert (Hmove : 0 <= Taxi.vy (integrate c dt g0) * dt).
    { apply Qmult_le_0_compat; assumption. }
    unfold updateGame. cbn [taxi set_taxi]. rewrite <- Hb.
    apply VB; rewrite Epos, ?Hb; lra. }
  revert g Hmode Hkeys Hbottom Hstep.
  induction n as [| n IH]; intros g Hmode Hkeys Hbottom Hstep Hy Hvy.
  - simpl. constructor; [| constructor]. apply Hstep; auto.
  - destruct (Hstep g Hmode Hkeys eq_refl Hy Hvy) as (Ey & Evy & Eg).
    destruct (updateGame_mode_keys c dt g) as (Em & Ek).
    cbn [trajectory]. constructor; [auto |].
    change (bottomBoundary g) with (bottomBoundary (updateGame c dt g)).
    apply IH.
    + rewrite Em. exact Hmode.
    + rewrite Ek. exact Hkeys.
    + exact Hbottom.
    + exact Hstep.
    + rewrite Ey. apply Qle_refl.
    + rewrite Evy. apply Qle_refl.
Qed.

Lemma grounded_taxi_stays_session :
  Forall (fun g' => Taxi.y (taxi g') = bottomBoundary groundedGame
                    /\ Taxi.vy (taxi g') = 0
                    /\ Taxi.onGround (taxi g') = true)
         (trajectory sessionConfig (1 # 60) 30
            (updateGame sessionConfig (1 # 60) groundedGame)).
Proof.
  apply (grounded_taxi_stays sessionConfig (1 # 60) 30 groundedGame);
    try reflexivity; discriminate.
Defined.





(** ** Rendering and starting *)

Lemma renderGame_same_inputs (c : Config) (alpha : Q) (g : Game) :
  samePhysicsInputs c (renderGame alpha g) c g
  /\ taxi (renderGame alpha g) = taxi g.
Proof.
  unfold samePhysicsInputs, renderGame, kinematics, taxiWidth, taxiHeight.
  destruct g as [t k iw ih [sp |] act]; simpl; repeat split.
Qed.

Lemma updates_same_taxi (c : Config) (dt : Q) (n : nat) : forall (g1 g2 : Game),
  samePhysicsInputs c g1 c g2 ->
  taxi g1 = taxi g2 ->
  taxi (updates c dt n g1) = taxi (updates c dt n g2).
Proof.
  induction n as [| n IH]; intros g1 g2 Hsame Htaxi; [exact Htaxi |].
  cbn [updates]. apply IH.
  - apply updateGame_same_inputs. exact Hsame.
  - apply updateGame_same_taxi; assumption.
Qed.

(** Rendering never feeds back into the simulation.  [renderGame] changes
    neither the taxi nor the held keys, ignores the interpolation factor it is
    given, and is idempotent; any number of updates after a render gives the
    taxi that the same updates give without it.  What it writes is the sprite:
    centred on [x], its top at [y], flipped when the taxi faces right, with the
    gear image when the gear is down. *)
Theorem render_has_no_feedback (c : Config) (dt alpha beta : Q) (n : nat) (g : Game) :
  taxi (renderGame alpha g) = taxi g
  /\ keys (renderGame alpha g) = keys g
  /\ renderGame alpha g = renderGame beta g
  /\ renderGame beta (renderGame alpha g) = renderGame alpha g
  /\ taxi (updates c dt n (renderGame alpha g)) = taxi (updates c dt n g)
  /\ (forall sp, taxiSprite g = Some sp ->
      exists sp', taxiSprite (renderGame alpha g) = Some sp'
                  /\ styleLeft sp' + offsetWidth sp' / 2 == Taxi.x (taxi g)
                  /\ styleTop sp' = Taxi.y (taxi g)
                  /\ flipped sp' = Taxi.facingRight (taxi g)
                  /\ gearImage sp' = Taxi.landingGear (taxi g)
                  /\ offsetWidth sp' = offsetWidth sp
                  /\ offsetHeight sp' = offsetHeight sp).
Proof.
  split; [apply (renderGame_same_inputs c) |].
  split; [unfold renderGame; destruct (taxiSprite g); reflexivity |].
  split; [reflexivity |].
  split; [destruct g as [t k iw ih [sp |] act]; reflexivity |].
  split.
  - destruct (renderGame_same_inputs c alpha g) as (Hsame & Htaxi).
    apply updates_same_taxi; assumption.
  - intros sp Hsp. unfold renderGame. rewrite Hsp.
    eexists. split; [reflexivity |]. simpl. repeat split. lra.
Qed.

Lemma start_fresh (c : Config) (now resetClock : Q) (first : Frame) (r : Run Game) :
  isRunning (engine r) = false ->
  0 < updateTime (engine r) ->
  (0 <= maxFrameSkip (engine r))%Z ->
  let r' := start (gameHooks c) now resetClock first r in
  taxi (game r') = startTaxi c (game r)
  /\ keys (game r') = keys (game r)
  /\ gameScreenActive (game r') = gameScreenActive (game r)
  /\ isRunning (engine r') = true
  /\ isPaused (engine r') = false.
Proof.
  intros Hrun Hut Hmfs r'. subst r'.
  unfold start. rewrite Hrun. cbv zeta.
  match goal with
  | |- context [gameLoop ?h0 ?f0 ?r0] =>
      destruct (gameLoop_first_frame h0 renderGame f0 r0 eq_refl)
        as (alpha & _ & _ & Hgame & Hr & Hp & _);
      try reflexivity; try assumption
  end.
  rewrite Hgame, Hr, Hp. cbn [invoke gameHooks onInit game with_engine].
  destruct (game r) as [t k iw ih [sp |] act]; repeat split.
Qed.

(** Starting a game resets the taxi and nothing else of the game state.
    [start()] on an engine that is not running, with the hooks [initGame]
    installs and a positive update interval, leaves the taxi at the configured
    start position, at rest, in regular mode, facing left, with the gear up,
    whatever the last game left behind.  The held keys are not reset: a
    thruster key still marked as held stays held in the new game. *)
Theorem start_resets_taxi_not_keys (now resetClock : Q) (first : Frame)
    (r : Run Game) :
  isRunning (engine r) = false ->
  0 < updateTime (engine r) ->
  (0 <= maxFrameSkip (engine r))%Z ->
  let r' := start (gameHooks (config (engine r))) now resetClock first r in
  taxi (game r') = startTaxi (config (engine r)) (game r)
  /\ keys (game r') = keys (game r)
  /\ isRunning (engine r') = true
  /\ isPaused (engine r') = false.
Proof.
  intros Hrun Hut Hmfs r'. subst r'.
  destruct (start_fresh (config (engine r)) now resetClock first r Hrun Hut Hmfs)
    as (Htaxi & Hkeys & _ & Hr & Hp).
  split; [exact Htaxi |]. split; [exact Hkeys |]. split; [exact Hr | exact Hp].
Qed.

Lemma start_resets_taxi_not_keys_session :
  taxi (game (start sessionHooks 9000 9000 (mkFrame 9000 20 9000)
                (mkRun (constructor initGameOptions) thrustGameOther [])))
  = startTaxi sessionConfig thrustGameOther
  /\ keys (game (start sessionHooks 9000 9000 (mkFrame 9000 20 9000)
                   (mkRun (constructor initGameOptions) thrustGameOther [])))
     = Keys.mk true false false true.
Proof.
  destruct (start_resets_taxi_not_keys 9000 9000 (mkFrame 9000 20 9000)
              (mkRun (constructor initGameOptions) thrustGameOther []))
    as (Htaxi & Hkeys & _); try reflexivity; try discriminate.
  split; [exact Htaxi | exact Hkeys].
Defined.

(** ** The start screen *)

(** Closes the cases of a statement about one key press once the key is
    known. *)
Ltac settle_keys :=
  simpl; repeat split; intros;
  repeat match goal with
         | H : _ /\ _ |- _ => destruct H
         end;
  try discriminate; try lia; try congruence; auto.

Lemma startScreenKeydown_credits (event : KeyboardEvent) (p : Page) :
  (0 <= credits p)%Z -> (0 <= credits (startScreenKeydown event p))%Z.
Proof.
  intros Hc. unfold startScreenKeydown. cbv zeta.
  destruct (key event =? "Escape")%string;
    [destruct (isGameMode p); exact Hc |].
  destruct (isGameMode p); [exact Hc |].
  destruct (key event =? "1")%string; [simpl; lia |].
  destruct (key event =? "2")%string; [simpl; lia |].
  destruct (key event =? "0")%string; [simpl; lia |].
  destruct (key event =? "Enter")%string; [| exact Hc].
  destruct (0 <? credits p)%Z eqn:Hpos; [| exact Hc].
  apply Z.ltb_lt in Hpos. simpl. lia.
Qed.

(** The credit counter never goes negative, whatever keys are pressed. *)
Theorem credits_never_negative (events : list KeyboardEvent) (p : Page) :
  (0 <= credits p)%Z ->
  (0 <= credits (startScreenKeys events p))%Z.
Proof.
  revert p. induction events as [| event rest IH]; intros p Hc; [exact Hc |].
  change (startScreenKeys (event :: rest) p)
    with (startScreenKeys rest (startScreenKeydown event p)).
  apply IH. apply startScreenKeydown_credits. exact Hc.
Qed.

Lemma credits_never_negative_session :
  (0 <= credits (startScreenKeys
                   [mkKeyboardEvent "Enter"; mkKeyboardEvent "1";
                    mkKeyboardEvent "Enter"; mkKeyboardEvent "Escape";
                    mkKeyboardEvent "Enter"; mkKeyboardEvent "2"]
                   startPage))%Z.
Proof.
  apply credits_never_negative. discriminate.
Defined.

(** Entering the game costs a credit.  From the start screen a key press
    switches to the game screen if and only if it is [Enter] and there is at
    least one credit; the switch takes exactly one credit and hides the start
    screen.  With no credit [Enter] changes nothing at all. *)
Theorem game_entry_costs_one_credit (event : KeyboardEvent) (p : Page) :
  isGameMode p = false ->
  let p' := startScreenKeydown event p in
  (isGameMode p' = true <-> key event = "Enter"%string /\ (0 < credits p)%Z)
  /\ (isGameMode p' = true ->
      credits p' = (credits p - 1)%Z
      /\ startScreenHidden p' = true
      /\ creditMessage p' = creditText (credits p - 1))
  /\ (key event = "Enter"%string -> (credits p <= 0)%Z -> p' = p).
Proof.
  intros Hmode p'. subst p'. unfold startScreenKeydown. cbv zeta. rewrite Hmode.
  unfold isGameMode in *.
  destruct (key event =? "Escape")%string eqn:Hesc;
    [apply String.eqb_eq in Hesc; settle_keys |].
  destruct (key event =? "1")%string eqn:H1;
    [apply String.eqb_eq in H1; settle_keys |].
  destruct (key event =? "2")%string eqn:H2;
    [apply String.eqb_eq in H2; settle_keys |].
  destruct (key event =? "0")%string eqn:H0;
    [apply String.eqb_eq in H0; settle_keys |].
  destruct (key event =? "Enter")%string eqn:Hent.
  - apply String.eqb_eq in Hent.
    destruct (0 <? credits p)%Z eqn:Hpos.
    + apply Z.ltb_lt in Hpos. settle_keys.
    + apply Z.ltb_ge in Hpos. settle_keys.
  - apply String.eqb_neq in Hent. settle_keys.
Qed.

Lemma game_entry_costs_one_credit_session :
  credits (startScreenKeydown (mkKeyboardEvent "Enter")
             (startScreenKeydown (mkKeyboardEvent "2") startPage)) = 1%Z.
Proof.
  destruct (game_entry_costs_one_credit (mkKeyboardEvent "Enter")
              (startScreenKeydown (mkKeyboardEvent "2") startPage) eq_refl)
    as (_ & Hcost & _).
  destruct (Hcost eq_refl) as [Hcredits _]. exact Hcredits.
Defined.

(** During a game the start screen is locked.  In game mode every key but
    [Escape] leaves the page exactly as it is, over any sequence of presses:
    no coin is taken, no credit is lost or reset.  [Escape] shows the start
    screen again and deactivates the game screen, and keeps the credits and
    the message. *)
Theorem game_mode_locks_start_screen (events : list KeyboardEvent) (p : Page) :
  isGameMode p = true ->
  (noEscape events = true -> startScreenKeys events p = p)
  /\ (let p' := startScreenKeydown (mkKeyboardEvent "Escape") p in
      isGameMode p' = false
      /\ startScreenHidden p' = false
      /\ credits p' = credits p
      /\ creditMessage p' = creditMessage p
      /\ engine (session p') = engine (session p)
      /\ taxi (game (session p')) = taxi (game (session p))
      /\ keys (game (session p')) = keys (game (session p))).
Proof.
  intros Hmode. split.
  - induction events as [| event rest IH]; intros Hkeys; [reflexivity |].
    unfold noEscape in Hkeys. simpl in Hkeys.
    apply andb_true_iff in Hkeys. destruct Hkeys as [Hevent Hrest].
    apply negb_true_iff in Hevent.
    change (startScreenKeys (event :: rest) p)
      with (startScreenKeys rest (startScreenKeydown event p)).
    assert (Hsame : startScreenKeydown event p = p).
    { unfold startScreenKeydown. rewrite Hevent. cbv zeta. rewrite Hmode.
      reflexivity. }
    rewrite Hsame. exact (IH Hrest).
  - unfold startScreenKeydown. cbv zeta. rewrite Hmode. simpl.
    repeat split.
Qed.

Lemma game_mode_locks_start_screen_session :
  startScreenKeys [mkKeyboardEvent "1"; mkKeyboardEvent "0"; mkKeyboardEvent "Enter"]
                  playingPage
  = playingPage.
Proof.
  apply (proj1 (game_mode_locks_start_screen
                  [mkKeyboardEvent "1"; mkKeyboardEvent "0"; mkKeyboardEvent "Enter"]
                  playingPage eq_refl)).
  reflexivity.
Defined.

(** The credit message follows the credits.  Once the message shows the
    text for the current credits it does so after every key press, and a coin
    key or the reset key on the start screen makes it so whatever it showed
    before.  The text names the count, with [CREDIT] for one and [CREDITS]
    for more, and asks for a coin when there is none. *)
Theorem credit_message_follows_credits (events : list KeyboardEvent) (p : Page) :
  (creditMessage p = creditText (credits p) ->
   creditMessage (startScreenKeys events p)
   = creditText (credits (startScreenKeys events p)))
  /\ (forall event,
         isGameMode p = false ->
         key event = "1"%string \/ key event = "2"%string \/ key event = "0"%string ->
         creditMessage (startScreenKeydown event p)
         = creditText (credits (startScreenKeydown event p)))
  /\ creditText 1 = "1 CREDIT"%string
  /\ (forall n, (1 < n)%Z ->
         creditText n
         = (NilZero.string_of_int (Z.to_int n) ++ " CREDITS")%string)
  /\ (forall n, (n <= 0)%Z ->
         creditText n = "INSERT COIN TO BEGIN (PRESS KEYS 1 || 2)"%string).
Proof.
  split; [| split; [| split; [| split]]].
  - revert p. induction events as [| event rest IH]; intros p Hmsg; [exact Hmsg |].
    change (startScreenKeys (event :: rest) p)
      with (startScreenKeys rest (startScreenKeydown event p)).
    apply IH. unfold startScreenKeydown. cbv zeta.
    destruct (key event =? "Escape")%string;
      [destruct (isGameMode p); exact Hmsg |].
    destruct (isGameMode p); [exact Hmsg |].
    destruct (key event =? "1")%string; [reflexivity |].
    destruct (key event =? "2")%string; [reflexivity |].
    destruct (key event =? "0")%string; [reflexivity |].
    destruct (key event =? "Enter")%string; [| exact Hmsg].
    destruct (0 <? credits p)%Z; [reflexivity | exact Hmsg].
  - intros event Hmode Hkey. unfold startScreenKeydown. cbv zeta. rewrite Hmode.
    destruct Hkey as [-> | [-> | ->]]; reflexivity.
  - reflexivity.
  - intros n Hn. unfold creditText.
    assert (H0 : (0 <? n)%Z = true) by (apply Z.ltb_lt; lia).
    assert (H1 : (1 <? n)%Z = true) by (apply Z.ltb_lt; lia).
    rewrite H0, H1. reflexivity.
  - intros n Hn. unfold creditText.
    assert (H0 : (0 <? n)%Z = false) by (apply Z.ltb_ge; lia).
    rewrite H0. reflexivity.
Qed.

(** ** The two listeners and the observer together *)

Lemma keydown_active (c : Config) (now : Q) (event : KeyboardEvent) (r : Run Game) :
  gameScreenActive (game (keydown (gameHooks c) now event r))
  = gameScreenActive (game r).
Proof.
  destruct (gameScreenActive (game r)) eqn:Hactive.
  - apply (keydown_effect c now event r Hactive).
  - unfold keydown. rewrite Hactive. exact Hactive.
Qed.

(** [Escape] and [Enter] mean nothing to the game's listener. *)
Lemma keydown_inert (h : Hooks Game) (now : Q) (event : KeyboardEvent) (r : Run Game) :
  key event = "Escape"%string \/ key event = "Enter"%string ->
  keydown h now event r = r.
Proof.
  destruct event as [k]. simpl.
  destruct r as [e [t [kw ks ka kd] iw ih sp act] cs].
  intros [-> | ->]; unfold keydown; simpl;
    destruct act; try reflexivity; destruct (running e); reflexivity.
Qed.

(** The start screen's and the game's key-down listeners hang on the same
    document and see every key press.  The order in which they run does not
    matter: either order leaves the same page. *)
Theorem keydown_listeners_commute (c : Config) (now : Q) (event : KeyboardEvent)
    (p : Page) :
  startScreenKeydown event (gameKeydown (gameHooks c) now event p)
  = gameKeydown (gameHooks c) now event (startScreenKeydown event p).
Proof.
  destruct p as [cr msg hid r].
  unfold startScreenKeydown, gameKeydown, isGameMode, showScreens,
    updateCreditMessage, set_credits.
  cbn [credits creditMessage startScreenHidden session].
  rewrite keydown_active.
  destruct (key event =? "Escape")%string eqn:Hesc.
  { apply String.eqb_eq in Hesc.
    rewrite !(keydown_inert _ now event) by (left; exact Hesc).
    destruct (gameScreenActive (game r)); reflexivity. }
  destruct (gameScreenActive (game r)); [reflexivity |].
  destruct (key event =? "1")%string; [reflexivity |].
  destruct (key event =? "2")%string; [reflexivity |].
  destruct (key event =? "0")%string; [reflexivity |].
  destruct (key event =? "Enter")%string eqn:Hent; [| reflexivity].
  apply String.eqb_eq in Hent.
  rewrite !(keydown_inert _ now event) by (right; exact Hent).
  destruct (0 <? cr)%Z; reflexivity.
Qed.

Lemma applyAll_not_running {G : Type} (h : Hooks G) (ops : list Op) (r : Run G) :
  isRunning (engine r) = false ->
  forallb (fun op => negb (isStart op)) ops = true ->
  applyAll h ops r = r.
Proof.
  intros Hrun. induction ops as [| op ops IH]; intros Hops; [reflexivity |].
  simpl in Hops. apply andb_true_iff in Hops. destruct Hops as [Hop Hrest].
  apply negb_true_iff in Hop.
  change (applyAll h (op :: ops) r) with (applyAll h ops (apply h op r)).
  rewrite (apply_not_running h op r Hop Hrun). exact (IH Hrest).
Qed.

(** The engine once the observer has seen the screen go inactive. *)
Lemma halt_facts (c : Config) (r : Run Game) :
  let r1 := if isRunning (engine r) then stop (gameHooks c) r else r in
  game r1 = game r
  /\ isRunning (engine r1) = false
  /\ updateTime (engine r1) = updateTime (engine r)
  /\ maxFrameSkip (engine r1) = maxFrameSkip (engine r)
  /\ config (engine r1) = config (engine r).
Proof.
  cbv zeta. destruct (isRunning (engine r)) eqn:Hrun; [| auto].
  unfold stop. rewrite Hrun. simpl.
  destruct (frameId (engine r)) as [id |]; [destruct (id =? 0)%Z |];
    simpl; auto.
Qed.

Lemma observer_deactivation (c : Config) (r : Run Game) :
  gameScreenActive (game r) = false ->
  let r' := fst (onGameScreenClassChange (gameHooks c) r) in
  snd (onGameScreenClassChange (gameHooks c) r) = false
  /\ isRunning (engine r') = false
  /\ updateTime (engine r') = updateTime (engine r)
  /\ maxFrameSkip (engine r') = maxFrameSkip (engine r)
  /\ config (engine r') = config (engine r)
  /\ gameScreenActive (game r') = false
  /\ taxi (game r') = taxi (game r)
  /\ keys (game r') = keys (game r)
  /\ innerWidth (game r') = innerWidth (game r)
  /\ innerHeight (game r') = innerHeight (game r)
  /\ (forall sp, taxiSprite (game r') = Some sp -> visible sp = false).
Proof.
  intros Hactive. unfold onGameScreenClassChange. rewrite Hactive. cbv zeta.
  destruct (halt_facts c r) as (Hg & Hrun & Hut & Hmfs & Hcfg).
  set (r1 := if isRunning (engine r) then stop (gameHooks c) r else r) in *.
  cbn [fst snd with_game engine game]. rewrite Hg.
  destruct (game r) as [t k iw ih [sp |] act]; simpl in *;
    repeat split; try assumption; intros sp' Hsp;
    [injection Hsp as <-; reflexivity | discriminate].
Qed.

(** Quitting really quits.  [Escape] during a game deactivates the game
    screen; once the observer has seen that, the engine is stopped and asks
    for no restart, the sprite is hidden, and the taxi and the held keys are
    as they were.  From then on frame callbacks, [pause()], [resume()] and
    [stop()] do nothing, and the game's listeners ignore every key press and
    every key release. *)
Theorem quit_stops_the_game (c : Config) (p : Page) :
  isGameMode p = true ->
  let p1 := startScreenKeydown (mkKeyboardEvent "Escape") p in
  let observed := onGameScreenClassChange (gameHooks c) (session p1) in
  let r2 := fst observed in
  isGameMode p1 = false
  /\ snd observed = false
  /\ isRunning (engine r2) = false
  /\ taxi (game r2) = taxi (game (session p))
  /\ keys (game r2) = keys (game (session p))
  /\ (forall sp, taxiSprite (game r2) = Some sp -> visible sp = false)
  /\ (forall ops, forallb (fun op => negb (isStart op)) ops = true ->
                  applyAll (gameHooks c) ops r2 = r2)
  /\ (forall now event, keydown (gameHooks c) now event r2 = r2)
  /\ (forall event, keyup event r2 = r2).
Proof.
  intros Hmode p1 observed r2.
  assert (Hp1 : p1 = showScreens false false p).
  { subst p1. unfold startScreenKeydown. cbv zeta. rewrite Hmode. reflexivity. }
  assert (Hoff : gameScreenActive (game (session p1)) = false).
  { rewrite Hp1. reflexivity. }
  destruct (observer_deactivation c (session p1) Hoff)
    as (Hpend & Hrun & _ & _ & _ & Hact & Htaxi & Hkeys & _ & _ & Hsprite).
  cbv zeta in Hrun, Hact, Htaxi, Hkeys, Hsprite. subst r2 observed.
  split; [exact Hoff |]. split; [exact Hpend |]. split; [exact Hrun |].
  split; [rewrite Htaxi, Hp1; reflexivity |].
  split; [rewrite Hkeys, Hp1; reflexivity |].
  split; [exact Hsprite |]. split; [| split].
  - intros ops Hops. apply applyAll_not_running; assumption.
  - intros now event. unfold keydown. rewrite Hact. reflexivity.
  - intros event. unfold keyup. rewrite Hact. reflexivity.
Qed.

Lemma quit_stops_the_game_session :
  isRunning
    (engine (fst (onGameScreenClassChange sessionHooks
                    (session (startScreenKeydown (mkKeyboardEvent "Escape")
                                                 playingPage)))))
  = false.
Proof.
  apply (quit_stops_the_game sessionConfig playingPage eq_refl).
Defined.

Lemma observer_activation (c : Config) (r : Run Game) :
  gameScreenActive (game r) = true ->
  let r' := fst (onGameScreenClassChange (gameHooks c) r) in
  snd (onGameScreenClassChange (gameHooks c) r) = negb (isRunning (engine r))
  /\ engine r' = engine r
  /\ gameScreenActive (game r') = true
  /\ taxi (game r') = taxi (game r)
  /\ keys (game r') = keys (game r)
  /\ innerWidth (game r') = innerWidth (game r)
  /\ innerHeight (game r') = innerHeight (game r).
Proof.
  intros Hactive. unfold onGameScreenClassChange. rewrite Hactive. cbv zeta.
  cbn [fst snd with_game engine game].
  destruct (game r) as [t k iw ih [sp |] act]; simpl in *; repeat split;
    assumption.
Qed.

Lemma enter_starts_a_game (p : Page) :
  isGameMode p = false ->
  (0 < credits p)%Z ->
  startScreenKeydown (mkKeyboardEvent "Enter") p
  = showScreens true true (updateCreditMessage (set_credits (credits p - 1) p)).
Proof.
  intros Hmode Hcredit. apply Z.ltb_lt in Hcredit.
  unfold startScreenKeydown. cbv zeta. rewrite Hmode, Hcredit. reflexivity.
Qed.

(** A held key survives quitting and restarting.  Quit a game with
    [Escape] while thruster keys are held; release any key afterwards (the
    game's key-up listener ignores it: its screen is inactive); start again
    with [Enter], for a credit.  The observer asks for the engine to be
    started, and once it is, the taxi is back at its start but the held keys
    are exactly those held when the game was quit. *)
Theorem held_keys_survive_restart (c : Config) (released : KeyboardEvent)
    (now resetClock : Q) (first : Frame) (p : Page) :
  isGameMode p = true ->
  (0 < credits p)%Z ->
  0 < updateTime (engine (session p)) ->
  (0 <= maxFrameSkip (engine (session p)))%Z ->
  let result := quitAndRestart c released now resetClock first p in
  snd result = true
  /\ keys (game (session (fst result))) = keys (game (session p))
  /\ taxi (game (session (fst result))) = startTaxi c (game (session p))
  /\ credits (fst result) = (credits p - 1)%Z
  /\ isGameMode (fst result) = true
  /\ isRunning (engine (session (fst result))) = true.
Proof.
  intros Hmode Hcredit Hut Hmfs result. subst result. unfold quitAndRestart.
  assert (Hp1 : startScreenKeydown (mkKeyboardEvent "Escape") p
                = showScreens false false p).
  { unfold startScreenKeydown. cbv zeta. rewrite Hmode. reflexivity. }
  rewrite Hp1. cbv zeta.
  destruct (observer_deactivation c (session (showScreens false false p)) eq_refl)
    as (_ & Hrun & Eut & Emfs & _ & Hact & Htaxi & Hkeys & Hiw & Hih & _).
  set (r2 := fst (onGameScreenClassChange (gameHooks c)
                    (session (showScreens false false p)))) in *.
  destruct p as [cr msg hid r].
  cbn [session set_session showScreens credits creditMessage startScreenHidden]
    in *.
  assert (Hup : keyup released r2 = r2).
  { unfold keyup. rewrite Hact. reflexivity. }
  rewrite Hup.
  rewrite enter_starts_a_game by assumption.
  cbn [session set_session showScreens updateCreditMessage set_credits
       credits creditMessage startScreenHidden fst snd isGameMode].
  set (r4 := with_game (set_gameScreenActive true) r2).
  destruct (observer_activation c r4 eq_refl)
    as (Hpend & Heng & Gact & Gtaxi & Gkeys & Giw & Gih).
  set (r5 := fst (onGameScreenClassChange (gameHooks c) r4)) in *.
  destruct (start_fresh c now resetClock first r5)
    as (Ftaxi & Fkeys & Fact & Frun & _).
  { rewrite Heng. exact Hrun. }
  { rewrite Heng. cbn [r4 with_game engine]. rewrite Eut. exact Hut. }
  { rewrite Heng. cbn [r4 with_game engine]. rewrite Emfs. exact Hmfs. }
  change (isGameMode (set_session ?a ?b)) with (gameScreenActive (game a)).
  rewrite Hpend, Ftaxi, Fkeys, Fact, Frun, Gkeys, Gact.
  cbn [r4 with_game engine game]. rewrite Hrun.
  assert (Hstart : startTaxi c (game r5) = startTaxi c (game r)).
  { unfold startTaxi. rewrite Giw, Gih. cbn [r4 with_game game].
    destruct (game r2) as [t k iw ih sp act]; simpl in *.
    rewrite Hiw, Hih. destruct (game r); reflexivity. }
  rewrite Hstart.
  repeat split.
  destruct (game r2) as [t k iw ih sp act]; simpl in *.
  rewrite Hkeys. destruct (game r); reflexivity.
Qed.

Lemma held_keys_survive_restart_session :
  keys (game (session (fst (quitAndRestart sessionConfig (mkKeyboardEvent "w")
                              9000 9000 (mkFrame 9000 20 9000) playingPage))))
  = Keys.mk true false false false.
Proof.
  apply (held_keys_survive_restart sessionConfig (mkKeyboardEvent "w")
           9000 9000 (mkFrame 9000 20 9000) playingPage);
    try reflexivity; discriminate.
Defined.
